(** * storyhub.sdk: the refresh gate, the refresh pipeline and the lookup
      service of [StoryscriptHub], and [Argument], embedded in Rocq.

    The development follows [storyhub/sdk/StoryscriptHub.py] and
    [storyhub/sdk/service/Argument.py]:
    - [Json]: the part of Python's [json] module the hub relies on
      ([json.dumps] with its default separators and [ensure_ascii],
      [json.loads]);
    - [Hub]: [UpdateController] and [StoryscriptHub], as a state and
      exception monad over an explicit world (clock, remote catalog,
      local store, other threads' completions, event trace);
    - [Argument]: [Argument.from_dict] and its accessors;
    - [Notions]: the words the statements are written in;
    - the facts: the round trip of [Json], then the gate, the pipeline,
      the lookups, the caches, the constructor and [Argument]. *)

From Stdlib Require Import ZArith List String Ascii Bool Lia Permutation.
From Stdlib Require Import Decimal DecimalFacts DecimalPos DecimalZ.
Import ListNotations.

Local Open Scope string_scope.

Module Json.

(** Python values that travel through [json]: [None], [bool], [int],
    [str], [list] and [dict] with string keys (a [dict] keeps insertion
    order; its keys are pairwise distinct, see [wf]).  A [str] is a
    sequence of code points below 256.  [float] is left out. *)
#[warnings="-register-all"]
Inductive json : Type :=
| JNull
| JBool (b : bool)
| JInt (z : Z)
| JStr (s : string)
| JList (l : list json)
| JDict (d : list (string * json)).

(** *** json.dumps *)

Definition dquote : ascii := ascii_of_N 34.

Definition hex_digit (n : N) : ascii :=
  match n with
  | 0%N => "0" | 1%N => "1" | 2%N => "2" | 3%N => "3" | 4%N => "4"
  | 5%N => "5" | 6%N => "6" | 7%N => "7" | 8%N => "8" | 9%N => "9"
  | 10%N => "a" | 11%N => "b" | 12%N => "c" | 13%N => "d" | 14%N => "e"
  | _ => "f"
  end%char.

(** [ESCAPE_ASCII] of json.encoder: the quote, the backslash and whatever
    lies outside [' '..'~'] are escaped; the short escapes of [ESCAPE_DCT]
    come first, the rest becomes [\u00xx]. *)
Definition escape_char (c : ascii) : string :=
  let n := N_of_ascii c in
  if (n =? 34)%N then String "\" (String dquote EmptyString)
  else if (n =? 92)%N then "\\"
  else if (n =? 10)%N then "\n"
  else if (n =? 13)%N then "\r"
  else if (n =? 9)%N then "\t"
  else if (n =? 8)%N then "\b"
  else if (n =? 12)%N then "\f"
  else if ((32 <=? n) && (n <=? 126))%N then String c EmptyString
  else String "\" (String "u" (String "0" (String "0"
         (String (hex_digit (n / 16)) (String (hex_digit (n mod 16)) EmptyString))))).

Fixpoint escape_chars (s : string) : string :=
  match s with
  | EmptyString => EmptyString
  | String c r => escape_char c ++ escape_chars r
  end.

Definition encode_string (s : string) : string :=
  String dquote (escape_chars s ++ String dquote EmptyString).

Fixpoint digits (d : uint) : string :=
  match d with
  | Nil => EmptyString
  | D0 d => String "0" (digits d) | D1 d => String "1" (digits d)
  | D2 d => String "2" (digits d) | D3 d => String "3" (digits d)
  | D4 d => String "4" (digits d) | D5 d => String "5" (digits d)
  | D6 d => String "6" (digits d) | D7 d => String "7" (digits d)
  | D8 d => String "8" (digits d) | D9 d => String "9" (digits d)
  end.

Definition encode_int (z : Z) : string :=
  match Z.to_int z with
  | Pos d => digits d
  | Neg d => String "-" (digits d)
  end.

(** [', '.join] of the item texts. *)
Fixpoint join_items (l : list string) : string :=
  match l with
  | [] => EmptyString
  | [x] => x
  | x :: r => x ++ ", " ++ join_items r
  end.

Fixpoint dumps (v : json) : string :=
  match v with
  | JNull => "null"
  | JBool true => "true"
  | JBool false => "false"
  | JInt z => encode_int z
  | JStr s => encode_string s
  | JList l => "[" ++ join_items (map dumps l) ++ "]"
  | JDict d =>
      "{" ++ join_items (map (fun kv => encode_string (fst kv) ++ ": " ++ dumps (snd kv)) d)
          ++ "}"
  end.

Definition member_text (kv : string * json) : string :=
  encode_string (fst kv) ++ ": " ++ dumps (snd kv).

(** *** json.loads *)

Definition is_ws (c : ascii) : bool :=
  let n := N_of_ascii c in
  ((n =? 32) || (n =? 9) || (n =? 10) || (n =? 13))%N.

Fixpoint skip_ws (s : string) : string :=
  match s with
  | String c r => if is_ws c then skip_ws r else s
  | EmptyString => EmptyString
  end.

Definition hex_value (c : ascii) : option N :=
  let n := N_of_ascii c in
  if ((48 <=? n) && (n <=? 57))%N then Some (n - 48)%N
  else if ((97 <=? n) && (n <=? 102))%N then Some (n - 87)%N
  else if ((65 <=? n) && (n <=? 70))%N then Some (n - 55)%N
  else None.

(** [\uXXXX]: the code point, when it is one a [str] of this model holds. *)
Definition unicode_escape (h1 h2 h3 h4 : ascii) : option ascii :=
  match hex_value h1, hex_value h2, hex_value h3, hex_value h4 with
  | Some a, Some b, Some c, Some d =>
      let n := (((a * 16 + b) * 16 + c) * 16 + d)%N in
      if (n <? 256)%N then Some (ascii_of_N n) else None
  | _, _, _, _ => None
  end.

Definition simple_escape (c : ascii) : option ascii :=
  let n := N_of_ascii c in
  if (n =? 34)%N then Some c
  else if (n =? 92)%N then Some c
  else if (n =? 47)%N then Some c
  else if (n =? 98)%N then Some (ascii_of_N 8)
  else if (n =? 102)%N then Some (ascii_of_N 12)
  else if (n =? 110)%N then Some (ascii_of_N 10)
  else if (n =? 114)%N then Some (ascii_of_N 13)
  else if (n =? 116)%N then Some (ascii_of_N 9)
  else None.

(** [py_scanstring] (strict): the text after the opening quote, up to the
    closing one.  A raw control character is refused. *)
Fixpoint scanstring (s : string) : option (string * string) :=
  match s with
  | EmptyString => None
  | String c r =>
      let n := N_of_ascii c in
      if (n =? 34)%N then Some (EmptyString, r)
      else if (n =? 92)%N then
        match r with
        | String e r1 =>
            if (N_of_ascii e =? 117)%N then
              match r1 with
              | String h1 (String h2 (String h3 (String h4 r2))) =>
                  match unicode_escape h1 h2 h3 h4, scanstring r2 with
                  | Some x, Some (t, r3) => Some (String x t, r3)
                  | _, _ => None
                  end
              | _ => None
              end
            else
              match simple_escape e, scanstring r1 with
              | Some x, Some (t, r2) => Some (String x t, r2)
              | _, _ => None
              end
        | EmptyString => None
        end
      else if (n <? 32)%N then None
      else
        match scanstring r with
        | Some (t, r1) => Some (String c t, r1)
        | None => None
        end
  end.

Definition digit_of (c : ascii) : option (uint -> uint) :=
  match N_of_ascii c with
  | 48%N => Some D0 | 49%N => Some D1 | 50%N => Some D2 | 51%N => Some D3
  | 52%N => Some D4 | 53%N => Some D5 | 54%N => Some D6 | 55%N => Some D7
  | 56%N => Some D8 | 57%N => Some D9
  | _ => None
  end.

(** The longest run of decimal digits at the head of the text. *)
Fixpoint scan_digits (s : string) : uint * string :=
  match s with
  | EmptyString => (Nil, EmptyString)
  | String c r =>
      match digit_of c with
      | Some d => let '(u, r1) := scan_digits r in (d u, r1)
      | None => (Nil, s)
      end
  end.

(** What follows the integer part decides between [int] and [float]; a
    fraction or an exponent is outside this model and is refused. *)
Definition float_follows (s : string) : bool :=
  match s with
  | String c _ =>
      let n := N_of_ascii c in ((n =? 46) || (n =? 101) || (n =? 69))%N
  | EmptyString => false
  end.

(** The integer part of [NUMBER_RE]: a lone zero, or a non-zero digit
    and the digits after it. *)
Definition scan_uint (s : string) : option (uint * string) :=
  match s with
  | String c r =>
      match digit_of c with
      | Some d =>
          if (N_of_ascii c =? 48)%N then Some (D0 Nil, r)
          else let '(u, r1) := scan_digits r in Some (d u, r1)
      | None => None
      end
  | EmptyString => None
  end.

Definition scan_number (s : string) : option (json * string) :=
  match s with
  | String c r =>
      if (N_of_ascii c =? 45)%N then
        match scan_uint r with
        | Some (u, r1) =>
            if float_follows r1 then None else Some (JInt (Z.of_int (Neg u)), r1)
        | None => None
        end
      else
        match scan_uint s with
        | Some (u, r1) =>
            if float_follows r1 then None else Some (JInt (Z.of_int (Pos u)), r1)
        | None => None
        end
  | EmptyString => None
  end.

Fixpoint strip_prefix (p s : string) : option string :=
  match p, s with
  | EmptyString, _ => Some s
  | String a p', String b s' =>
      if Ascii.eqb a b then strip_prefix p' s' else None
  | String _ _, EmptyString => None
  end.

(** [dict(pairs)]: a later pair with a key already present replaces the
    value and keeps the place of the first. *)
Fixpoint dict_set (k : string) (v : json) (d : list (string * json)) :=
  match d with
  | [] => [(k, v)]
  | (k', v') :: r =>
      if String.eqb k' k then (k', v) :: r else (k', v') :: dict_set k v r
  end.

Definition dict_of_pairs (pairs : list (string * json)) : list (string * json) :=
  fold_left (fun d kv => dict_set (fst kv) (snd kv) d) pairs [].

(** [scan_once] with [JSONArray] and [JSONObject].  Every call consumes
    at least one character, so the length of the text bounds the depth
    ([loads] below); [None] is a [JSONDecodeError]. *)
Fixpoint scan_once (fuel : nat) (s : string) {struct fuel} : option (json * string) :=
  match fuel with
  | O => None
  | S fuel' =>
      match s with
      | EmptyString => None
      | String c r =>
          let n := N_of_ascii c in
          if (n =? 34)%N then
            match scanstring r with
            | Some (t, r1) => Some (JStr t, r1)
            | None => None
            end
          else if (n =? 123)%N then
            match skip_ws r with
            | String c1 r1 =>
                if (N_of_ascii c1 =? 125)%N then Some (JDict [], r1)
                else
                  match scan_members fuel' (String c1 r1) with
                  | Some (pairs, r2) => Some (JDict (dict_of_pairs pairs), r2)
                  | None => None
                  end
            | EmptyString => None
            end
          else if (n =? 91)%N then
            match skip_ws r with
            | String c1 r1 =>
                if (N_of_ascii c1 =? 93)%N then Some (JList [], r1)
                else
                  match scan_items fuel' (String c1 r1) with
                  | Some (vs, r2) => Some (JList vs, r2)
                  | None => None
                  end
            | EmptyString => None
            end
          else
            match strip_prefix "null" s, strip_prefix "true" s, strip_prefix "false" s with
            | Some r1, _, _ => Some (JNull, r1)
            | _, Some r1, _ => Some (JBool true, r1)
            | _, _, Some r1 => Some (JBool false, r1)
            | _, _, _ => scan_number s
            end
      end
  end

with scan_items (fuel : nat) (s : string) {struct fuel} : option (list json * string) :=
  match fuel with
  | O => None
  | S fuel' =>
      match scan_once fuel' s with
      | Some (v, r) =>
          match skip_ws r with
          | String c r1 =>
              if (N_of_ascii c =? 44)%N then
                match scan_items fuel' (skip_ws r1) with
                | Some (vs, r2) => Some (v :: vs, r2)
                | None => None
                end
              else if (N_of_ascii c =? 93)%N then Some ([v], r1)
              else None
          | EmptyString => None
          end
      | None => None
      end
  end

with scan_members (fuel : nat) (s : string) {struct fuel}
  : option (list (string * json) * string) :=
  match fuel with
  | O => None
  | S fuel' =>
      match s with
      | String q r =>
          if (N_of_ascii q =? 34)%N then
            match scanstring r with
            | Some (k, r1) =>
                match skip_ws r1 with
                | String c r2 =>
                    if (N_of_ascii c =? 58)%N then
                      match scan_once fuel' (skip_ws r2) with
                      | Some (v, r3) =>
                          match skip_ws r3 with
                          | String c1 r4 =>
                              if (N_of_ascii c1 =? 44)%N then
                                match scan_members fuel' (skip_ws r4) with
                                | Some (ps, r5) => Some ((k, v) :: ps, r5)
                                | None => None
                                end
                              else if (N_of_ascii c1 =? 125)%N then Some ([(k, v)], r4)
                              else None
                          | EmptyString => None
                          end
                      | None => None
                      end
                    else None
                | EmptyString => None
                end
            | None => None
            end
          else None
      | EmptyString => None
      end
  end.

(** [json.loads]: one value, white space allowed around it, nothing else
    after it. *)
Definition loads (s : string) : option json :=
  match scan_once (S (String.length s)) (skip_ws s) with
  | Some (v, r) => match skip_ws r with EmptyString => Some v | _ => None end
  | None => None
  end.

(** *** Well-formed values: the keys of every [dict] are pairwise distinct *)

Fixpoint distinct (l : list string) : bool :=
  match l with
  | [] => true
  | x :: r => negb (existsb (String.eqb x) r) && distinct r
  end.

Fixpoint wf (v : json) : bool :=
  match v with
  | JList l => forallb wf l
  | JDict d => distinct (map fst d) && forallb (fun kv => wf (snd kv)) d
  | _ => true
  end.

(** The text after a value printed inside a list, a dict or at top level. *)
Definition stop (s : string) : bool :=
  match s with
  | EmptyString => true
  | String c _ =>
      let n := N_of_ascii c in ((n =? 44) || (n =? 93) || (n =? 125))%N
  end.

Definition head_not_ws (s : string) : Prop :=
  match s with
  | String c _ => is_ws c = false
  | EmptyString => False
  end.

Definition num_head (c : ascii) : bool :=
  let n := N_of_ascii c in ((n =? 45) || ((48 <=? n) && (n <=? 57)))%N.

Definition value_head (s : string) : Prop :=
  match s with
  | String c _ => is_ws c = false /\ (N_of_ascii c =? 93)%N = false
  | EmptyString => False
  end.

Definition roundtrip_at (fuel : nat) : Prop :=
  (forall v r, wf v = true -> stop r = true ->
     String.length (dumps v) <= fuel ->
     scan_once fuel (dumps v ++ r) = Some (v, r)) /\
  (forall l r, l <> [] -> forallb wf l = true ->
     S (String.length (join_items (map dumps l))) <= fuel ->
     scan_items fuel (join_items (map dumps l) ++ String "]" r) = Some (l, r)) /\
  (forall d r, d <> [] -> forallb (fun kv => wf (snd kv)) d = true ->
     S (String.length (join_items (map member_text d))) <= fuel ->
     scan_members fuel (join_items (map member_text d) ++ String "}" r) = Some (d, r)).

End Json.

(** ** Python strings: [str.count] and [str.split] on one character *)

Fixpoint count_char (c : ascii) (s : string) : nat :=
  match s with
  | EmptyString => 0
  | String x r => if Ascii.eqb x c then S (count_char c r) else count_char c r
  end.

Fixpoint split_char (c : ascii) (s : string) : list string :=
  match s with
  | EmptyString => [EmptyString]
  | String x r =>
      if Ascii.eqb x c then EmptyString :: split_char c r
      else
        match split_char c r with
        | h :: t => String x h :: t
        | [] => [String x EmptyString]
        end
  end.

Module Hub.
Import Json.

(** *** Errors and outcomes *)

Inductive Exn : Type :=
| TransportFailure            (* GraphQL.get_all did not answer *)
| StoreFailure                (* the store transaction failed *)
| KeyError (k : string)
| TypeError
| ValueError
| AttributeError (a : string)
| JSONDecodeError.

Inductive Outcome (A : Type) : Type :=
| Ok (a : A)
| Raise (e : Exn).
Arguments Ok {A} a.
Arguments Raise {A} e.

Definition obind {A B} (o : Outcome A) (k : A -> Outcome B) : Outcome B :=
  match o with
  | Ok a => k a
  | Raise e => Raise e
  end.

(** *** Data *)

(** [UpdateController.IDLE], [UPDATING], [UPDATED]. *)
Inductive Status : Type := IDLE | UPDATING | UPDATED.

Definition status_eqb (a b : Status) : bool :=
  match a, b with
  | IDLE, IDLE | UPDATING, UPDATING | UPDATED, UPDATED => true
  | _, _ => false
  end.

(** Times are in milliseconds: [time.time()] reads the clock of the
    world, [time.sleep(0.5)] moves it by 500. *)
Record UpdateController : Type := {
  last_update_run : option Z;
  update_interval : Z;
  update_status : Status
}.

(** Modelled from the spec: the table [storyhub.sdk.db.Service] is not
    among the sources.  Its columns are those [update_cache] fills, typed
    after section 3 of the specification; [topics] and [configuration] hold
    a Python value ([JNull] for [None], [JStr] for the stored text, and
    the deserialized value once [get] has replaced it). *)
Record Service : Type := {
  service_uuid : string;
  name : string;
  alias : option string;
  username : string;
  description : json;
  certified : bool;
  public : bool;
  topics : json;
  state : string;
  configuration : json;
  readme : json;
  raw_data : string
}.

(** Modelled from the spec: [storyhub.sdk.service.ServiceData] is not among
    the sources.  [from_dict] builds the adapter's result shape from the
    dictionary it is given and keeps that dictionary (as [Argument.from_dict]
    does with its [data]). *)
Record ServiceData : Type := { data : json }.

Definition from_dict (d : json) : ServiceData := {| data := d |}.

(** Modelled from the spec: [storyhub.sdk.ServiceWrapper] is not among the
    sources.  Section 6 gives its contract, [get(alias?, owner?, name?)] and
    [reload(servicePayloads)]; the object keeps the payloads of the last
    reload and its lookup is left open.  What it finds carries a raw stored
    payload, which step 5 of section 4.3 converts. *)
Record Hit : Type := { hit_raw_data : string }.

Record ServiceWrapper : Type := {
  sw_services : list json;
  sw_lookup : list json -> option string -> option string -> option string -> option Hit
}.

Definition sw_get (sw : ServiceWrapper) (alias owner name : option string) : option Hit :=
  sw_lookup sw (sw_services sw) alias owner name.

Definition reload_services (services : list json) (sw : ServiceWrapper) : ServiceWrapper :=
  {| sw_services := services; sw_lookup := sw_lookup sw |}.

(** What [get] binds to [service]: a row of the store or a hit of the
    adapter. *)
Inductive Found : Type :=
| Row (s : Service)
| Adapted (h : Hit).

Definition found_raw_data (f : Found) : string :=
  match f with
  | Row s => raw_data s
  | Adapted h => hit_raw_data h
  end.

(** What [get] returns when it is not [None]. *)
Inductive Result : Type :=
| Plain (s : Service)
| Wrapped (d : ServiceData).

(** *** The world *)

Inductive Lock : Type := update_lock | retry_lock.

Inductive Query : Type :=
| ByAlias (a : string)
| ByOwnerName (owner name : option string)
| Names.

Inductive Event : Type :=
| EvAcquire (l : Lock)
| EvRelease (l : Lock)
| EvSleep
| EvSetStatus (s : Status)
| EvSetLastRun (t : Z)
| EvFetch
| EvReload
| EvBegin
| EvDeleteAll
| EvCreate (uuid : string)
| EvCommit
| EvRollback
| EvSelect (q : Query)
| EvClearCaches
| EvMakedirs (path : string)
| EvStartThread.

(** The refresh of another thread that reaches its end while this one
    sleeps: its rows are committed, the caches cleared, the status set
    to [UPDATED] and the time stamped. *)
Record Completion : Type := {
  done_rows : list Service;
  done_at : Z
}.

Definition Key : Type := (option string * option string * option string * bool)%type.

Definition key_eqb (a b : Key) : bool :=
  let opt_eqb x y :=
    match x, y with
    | Some s, Some t => String.eqb s t
    | None, None => true
    | _, _ => false
    end in
  let '(a1, a2, a3, a4) := a in
  let '(b1, b2, b3, b4) := b in
  opt_eqb a1 b1 && opt_eqb a2 b2 && opt_eqb a3 b3 && Bool.eqb a4 b4.

(** One hub in its process.  [remote], [store_faults] and [others] script
    what the surroundings do: the answers of the successive
    [GraphQL.get_all] calls, whether the successive store transactions
    fail, and what other threads complete during the successive sleeps;
    when a script is used up the remote does not answer, the store works
    and the other threads are quiet.  [trace] lists what this thread did,
    oldest first. *)
Record State : Type := {
  ctl : UpdateController;
  service_wrapper : option ServiceWrapper;
  db_path : string;
  update_thread : bool;
  db : list Service;
  names_cache : option (Z * list string);
  services_cache : list (Key * (Z * option Result));
  now : Z;
  remote : list (Outcome (list json));
  store_faults : list bool;
  others : list (option Completion);
  trace : list Event
}.

Definition with_ctl (c : UpdateController) (st : State) : State :=
  {| ctl := c; service_wrapper := service_wrapper st; db_path := db_path st;
     update_thread := update_thread st; db := db st; names_cache := names_cache st;
     services_cache := services_cache st; now := now st; remote := remote st;
     store_faults := store_faults st; others := others st; trace := trace st |}.

Definition with_wrapper (w : option ServiceWrapper) (st : State) : State :=
  {| ctl := ctl st; service_wrapper := w; db_path := db_path st;
     update_thread := update_thread st; db := db st; names_cache := names_cache st;
     services_cache := services_cache st; now := now st; remote := remote st;
     store_faults := store_faults st; others := others st; trace := trace st |}.

Definition with_thread (b : bool) (st : State) : State :=
  {| ctl := ctl st; service_wrapper := service_wrapper st; db_path := db_path st;
     update_thread := b; db := db st; names_cache := names_cache st;
     services_cache := services_cache st; now := now st; remote := remote st;
     store_faults := store_faults st; others := others st; trace := trace st |}.

Definition with_db (rows : list Service) (st : State) : State :=
  {| ctl := ctl st; service_wrapper := service_wrapper st; db_path := db_path st;
     update_thread := update_thread st; db := rows; names_cache := names_cache st;
     services_cache := services_cache st; now := now st; remote := remote st;
     store_faults := store_faults st; others := others st; trace := trace st |}.

Definition with_caches (n : option (Z * list string))
    (s : list (Key * (Z * option Result))) (st : State) : State :=
  {| ctl := ctl st; service_wrapper := service_wrapper st; db_path := db_path st;
     update_thread := update_thread st; db := db st; names_cache := n;
     services_cache := s; now := now st; remote := remote st;
     store_faults := store_faults st; others := others st; trace := trace st |}.

Definition with_now (t : Z) (st : State) : State :=
  {| ctl := ctl st; service_wrapper := service_wrapper st; db_path := db_path st;
     update_thread := update_thread st; db := db st; names_cache := names_cache st;
     services_cache := services_cache st; now := t; remote := remote st;
     store_faults := store_faults st; others := others st; trace := trace st |}.

Definition with_remote (r : list (Outcome (list json))) (st : State) : State :=
  {| ctl := ctl st; service_wrapper := service_wrapper st; db_path := db_path st;
     update_thread := update_thread st; db := db st; names_cache := names_cache st;
     services_cache := services_cache st; now := now st; remote := r;
     store_faults := store_faults st; others := others st; trace := trace st |}.

Definition with_store_faults (f : list bool) (st : State) : State :=
  {| ctl := ctl st; service_wrapper := service_wrapper st; db_path := db_path st;
     update_thread := update_thread st; db := db st; names_cache := names_cache st;
     services_cache := services_cache st; now := now st; remote := remote st;
     store_faults := f; others := others st; trace := trace st |}.

Definition with_others (o : list (option Completion)) (st : State) : State :=
  {| ctl := ctl st; service_wrapper := service_wrapper st; db_path := db_path st;
     update_thread := update_thread st; db := db st; names_cache := names_cache st;
     services_cache := services_cache st; now := now st; remote := remote st;
     store_faults := store_faults st; others := o; trace := trace st |}.

Definition with_db_path (p : string) (st : State) : State :=
  {| ctl := ctl st; service_wrapper := service_wrapper st; db_path := p;
     update_thread := update_thread st; db := db st; names_cache := names_cache st;
     services_cache := services_cache st; now := now st; remote := remote st;
     store_faults := store_faults st; others := others st; trace := trace st |}.

Definition with_trace (t : list Event) (st : State) : State :=
  {| ctl := ctl st; service_wrapper := service_wrapper st; db_path := db_path st;
     update_thread := update_thread st; db := db st; names_cache := names_cache st;
     services_cache := services_cache st; now := now st; remote := remote st;
     store_faults := store_faults st; others := others st; trace := t |}.

Definition log (e : Event) (st : State) : State :=
  with_trace (trace st ++ [e])%list st.

(** *** The monad of the hub's methods: state and exceptions *)

Definition M (A : Type) : Type := State -> Outcome A * State.

Definition ret {A} (a : A) : M A := fun st => (Ok a, st).

Definition raise {A} (e : Exn) : M A := fun st => (Raise e, st).

Definition bind {A B} (c : M A) (k : A -> M B) : M B :=
  fun st =>
    match c st with
    | (Ok a, st') => k a st'
    | (Raise e, st') => (Raise e, st')
    end.

Definition lift {A} (o : Outcome A) : M A := fun st => (o, st).

Definition emit (e : Event) : M unit := fun st => (Ok tt, log e st).

Declare Scope hub_scope.
Delimit Scope hub_scope with hub.
Notation "x <- c ;; k" := (bind c (fun x => k))
  (at level 61, c at next level, right associativity) : hub_scope.
Notation "c ;; k" := (bind c (fun _ => k))
  (at level 61, right associativity) : hub_scope.
Local Open Scope hub_scope.

(** [with lock: body]: the lock is released however the body ends. *)
Definition with_lock {A} (l : Lock) (body : M A) : M A :=
  fun st =>
    let '(r, st') := body (log (EvAcquire l) st) in
    (r, log (EvRelease l) st').

(** *** UpdateController *)

Definition UpdateController_init (interval : Z) : UpdateController :=
  {| last_update_run := None; update_interval := interval; update_status := IDLE |}.

Definition time : M Z := fun st => (Ok (now st), st).

Definition set_update_status (s : Status) : M unit :=
  fun st =>
    (Ok tt,
     log (EvSetStatus s)
       (with_ctl {| last_update_run := last_update_run (ctl st);
                    update_interval := update_interval (ctl st);
                    update_status := s |} st)).

Definition set_last_update_run (t : Z) : M unit :=
  fun st =>
    (Ok tt,
     log (EvSetLastRun t)
       (with_ctl {| last_update_run := Some t;
                    update_interval := update_interval (ctl st);
                    update_status := update_status (ctl st) |} st)).

Definition complete (c : Completion) (st : State) : State :=
  with_ctl {| last_update_run := Some (done_at c);
              update_interval := update_interval (ctl st);
              update_status := UPDATED |}
    (with_caches None [] (with_db (done_rows c) st)).

(** [time.sleep(0.5)]; the other threads run meanwhile. *)
Definition sleep : M unit :=
  fun st =>
    let st1 := log EvSleep (with_now (now st + 500) st) in
    match others st with
    | Some c :: rest => (Ok tt, complete c (with_others rest st1))
    | None :: rest => (Ok tt, with_others rest st1)
    | [] => (Ok tt, st1)
    end.

Definition mark_status_updating : M unit := set_update_status UPDATING.

Definition mark_status_updated : M unit :=
  set_update_status UPDATED ;;
  t <- time ;;
  set_last_update_run t.

Definition is_updating : M bool :=
  fun st =>
    match update_status (ctl st) with
    | IDLE | UPDATED => (Ok false, st)
    | UPDATING => (Ok true, st)
    end.

Definition check_last_update_run : M bool :=
  fun st =>
    match last_update_run (ctl st) with
    | None => (Ok true, st)
    | Some last =>
        let current_time := now st in
        if (current_time - last <? update_interval (ctl st))%Z
        then (Ok false, st)
        else (Ok true, st)
    end.

(** [while self.update_status == self.UPDATING and sleep_count < 5]:
    [polls_left] is [5 - sleep_count]. *)
Fixpoint wait_while_updating (polls_left : nat) : M unit :=
  fun st =>
    match polls_left with
    | O => (Ok tt, st)
    | S n =>
        if status_eqb (update_status (ctl st)) UPDATING
        then (sleep ;; wait_while_updating n) st
        else (Ok tt, st)
    end.

Definition go_nogo_execute_update : M bool :=
  with_lock update_lock
    (recent <- check_last_update_run ;;
     busy <- (if recent then is_updating else ret true) ;;
     if recent && negb busy then
       mark_status_updating ;;
       ret true
     else
       wait_while_updating 5 ;;
       fun st =>
         if status_eqb (update_status (ctl st)) UPDATING
         then (Ok true, st)
         else (Ok false, st)).

(** *** The store *)

Definition getitem (k : string) (j : json) : Outcome json :=
  match j with
  | JDict d =>
      match find (fun kv => String.eqb (fst kv) k) d with
      | Some kv => Ok (snd kv)
      | None => Raise (KeyError k)
      end
  | _ => Raise TypeError
  end.

Definition as_str (j : json) : Outcome string :=
  match j with
  | JStr s => Ok s
  | _ => Raise TypeError
  end.

Definition as_opt_str (j : json) : Outcome (option string) :=
  match j with
  | JStr s => Ok (Some s)
  | JNull => Ok None
  | _ => Raise TypeError
  end.

Definition as_bool (j : json) : Outcome bool :=
  match j with
  | JBool b => Ok b
  | _ => Raise TypeError
  end.

(** The arguments of [Service.create], in the order the call evaluates
    them.  A payload outside the contract of the remote catalog (a missing
    key, a field of another type) is refused. *)
Definition row_of_payload (service : json) : Outcome Service :=
  obind (obind (getitem "serviceUuid" service) as_str) (fun uuid =>
  obind (getitem "service" service) (fun inner =>
  obind (obind (getitem "name" inner) as_str) (fun nm =>
  obind (obind (getitem "alias" inner) as_opt_str) (fun al =>
  obind (obind (obind (getitem "owner" inner) (getitem "username")) as_str) (fun user =>
  obind (getitem "description" inner) (fun descr =>
  obind (obind (getitem "isCertified" inner) as_bool) (fun cert =>
  obind (obind (getitem "public" inner) as_bool) (fun pub =>
  obind (getitem "topics" inner) (fun tops =>
  obind (obind (getitem "state" service) as_str) (fun stt =>
  obind (getitem "configuration" service) (fun conf =>
  obind (getitem "readme" service) (fun rdme =>
  Ok {| service_uuid := uuid;
        name := nm;
        alias := al;
        username := user;
        description := descr;
        certified := cert;
        public := pub;
        topics := JStr (dumps tops);
        state := stt;
        configuration := JStr (dumps conf);
        readme := rdme;
        raw_data := dumps service |})))))))))))).

(** [for service in services: Service.create(...)], inside the
    transaction: [created] are the rows made so far. *)
Fixpoint create_all (services : list json) (created : list Service) : M (list Service) :=
  match services with
  | [] => ret created
  | service :: rest =>
      row <- lift (row_of_payload service) ;;
      emit (EvCreate (service_uuid row)) ;;
      create_all rest (created ++ [row])%list
  end.

Definition next_fault (st : State) : bool * State :=
  (hd false (store_faults st), with_store_faults (tl (store_faults st)) st).

(** [with db.atomic(lock_type='IMMEDIATE')]: the delete and the creates
    are committed together or not at all. *)
Definition replace_all (services : list json) : M unit :=
  fun st =>
    let '(fault, st1) := next_fault (log EvBegin st) in
    match (emit EvDeleteAll ;; create_all services []) st1 with
    | (Ok rows, st2) =>
        if fault then (Raise StoreFailure, log EvRollback st2)
        else (Ok tt, log EvCommit (with_db rows st2))
    | (Raise e, st2) => (Raise e, log EvRollback st2)
    end.

Definition alias_is (a : string) (s : Service) : bool :=
  match alias s with
  | Some x => String.eqb x a
  | None => false
  end.

Definition opt_is (x : option string) (v : string) : bool :=
  match x with
  | Some s => String.eqb v s
  | None => false
  end.

Definition owner_name_is (o n : option string) (s : Service) : bool :=
  opt_is o (username s) && opt_is n (name s).

(** [Service.select().where(...).get()]: the first row that matches, or
    [DoesNotExist] (here [None]). *)
Definition select (q : Query) : M (option Service) :=
  fun st =>
    (Ok match q with
        | ByAlias a => find (alias_is a) (db st)
        | ByOwnerName o n => find (owner_name_is o n) (db st)
        | Names => None
        end,
     log (EvSelect q) st).

(** *** StoryscriptHub *)

Definition slash : ascii := "/".

Definition truthy (s : option string) : bool :=
  match s with
  | Some (String _ _) => true
  | _ => false
  end.

Definition _get (alias owner name : option string) : M (option Service) :=
  args <- match alias with
          | Some a =>
              if Nat.eqb (count_char slash a) 1 then
                match split_char slash a with
                | [o; n] => ret (None, Some o, Some n)
                | _ => raise ValueError
                end
              else ret (alias, owner, name)
          | None => ret (alias, owner, name)
          end ;;
  let '(alias, owner, name) := args in
  match alias with
  | Some a => if truthy alias then select (ByAlias a) else select (ByOwnerName owner name)
  | None => select (ByOwnerName owner name)
  end.

Definition get_all : M (list json) :=
  fun st =>
    (hd (Raise TransportFailure) (remote st),
     log EvFetch (with_remote (tl (remote st)) st)).

Definition clear_caches : M unit :=
  fun st => (Ok tt, log EvClearCaches (with_caches None [] st)).

Definition update_cache : M bool :=
  do_update <- go_nogo_execute_update ;;
  if negb do_update then ret false
  else
    services <- get_all ;;
    (fun st =>
       match service_wrapper st with
       | Some sw =>
           (Ok tt, log EvReload (with_wrapper (Some (reload_services services sw)) st))
       | None => (Ok tt, st)
       end) ;;
    replace_all services ;;
    clear_caches ;;
    mark_status_updated ;;
    ret true.

(** The names a row contributes, in the order of the loop body. *)
Definition names_of (s : Service) : list string :=
  ((if truthy (alias s) then match alias s with Some a => [a] | None => [] end else [])
   ++ [(username s ++ String slash (name s))%string])%list.

(** [ttl=1 * 60], on the clock of the world. *)
Definition ttl : Z := 60000.

Definition get_all_service_names_body : M (list string) :=
  fun st => (Ok (flat_map names_of (db st)), log (EvSelect Names) st).

(** [@cached(cache=ttl_cache_for_service_names)].  The [TTLCache] keeps a
    value for [ttl]; dropping entries at [maxsize] is left out. *)
Definition get_all_service_names : M (list string) :=
  fun st =>
    match names_cache st with
    | Some (expires, v) =>
        if (now st <? expires)%Z then (Ok v, st)
        else
          (v' <- get_all_service_names_body ;;
           (fun st' => (Ok v', with_caches (Some (now st' + ttl, v')%Z) (services_cache st') st'))) st
    | None =>
        (v' <- get_all_service_names_body ;;
         (fun st' => (Ok v', with_caches (Some (now st' + ttl, v')%Z) (services_cache st') st'))) st
    end.

Definition json_loads (text : json) : M json :=
  match text with
  | JStr s =>
      match loads s with
      | Some v => ret v
      | None => raise JSONDecodeError
      end
  | _ => raise TypeError
  end.

Definition is_none (j : json) : bool :=
  match j with
  | JNull => true
  | _ => false
  end.

Definition set_topics (v : json) (s : Service) : Service :=
  {| service_uuid := service_uuid s; name := name s; alias := alias s;
     username := username s; description := description s;
     certified := certified s; public := public s; topics := v;
     state := state s; configuration := configuration s; readme := readme s;
     raw_data := raw_data s |}.

Definition set_configuration (v : json) (s : Service) : Service :=
  {| service_uuid := service_uuid s; name := name s; alias := alias s;
     username := username s; description := description s;
     certified := certified s; public := public s; topics := topics s;
     state := state s; configuration := v; readme := readme s;
     raw_data := raw_data s |}.

Definition option_map_found (o : option Service) : option Found :=
  match o with
  | Some s => Some (Row s)
  | None => None
  end.

(** The part of [get] that looks for the service. *)
Definition get_lookup (alias owner name : option string) : M (option Found) :=
  service <- (fun st =>
                match service_wrapper st with
                | Some sw =>
                    (Ok match sw_get sw alias owner name with
                        | Some h => Some (Adapted h)
                        | None => None
                        end, st)
                | None => (Ok None, st)
                end) ;;
  service <- match service with
             | None => r <- _get alias owner name ;; ret (option_map_found r)
             | Some _ => ret service
             end ;;
  match service with
  | None =>
      with_lock retry_lock
        (service <- _get alias owner name ;;
         match service with
         | None =>
             update_cache ;;
             r <- _get alias owner name ;;
             ret (option_map_found r)
         | Some s => ret (Some (Row s))
         end)
  | Some _ => ret service
  end.

(** The part of [get] that shapes what was found.  The early return for
    a [MagicMock] is a provision for the tests and has no counterpart; the
    [assert] holds by the type of [Found].  An adapter's hit is always
    converted, the adapter being configured when there is one; reading its
    topics is the attribute error the last branch stands for. *)
Definition get_result (wrap_service : bool) (service : option Found) : M (option Result) :=
  match service with
  | Some f =>
      fun st =>
        if wrap_service || (match service_wrapper st with Some _ => true | None => false end)
        then
          (j <- json_loads (JStr (found_raw_data f)) ;;
           ret (Some (Wrapped (from_dict (JDict [("service_data", j)]))))) st
        else
          match f with
          | Row s =>
              (s1 <- (if negb (is_none (topics s))
                      then v <- json_loads (topics s) ;; ret (set_topics v s)
                      else ret s) ;;
               s2 <- (if negb (is_none (configuration s1))
                      then v <- json_loads (configuration s1) ;; ret (set_configuration v s1)
                      else ret s1) ;;
               ret (Some (Plain s2))) st
          | Adapted h => (Raise (AttributeError "topics"), st)
          end
  | None => ret None
  end.

Definition get_body (alias owner name : option string) (wrap_service : bool)
  : M (option Result) :=
  service <- get_lookup alias owner name ;;
  get_result wrap_service service.

Fixpoint cache_find (k : Key) (t : Z) (c : list (Key * (Z * option Result)))
  : option (option Result) :=
  match c with
  | [] => None
  | (k', (expires, v)) :: r =>
      if key_eqb k' k then (if (t <? expires)%Z then Some v else None)
      else cache_find k t r
  end.

Definition cache_store (k : Key) (expires : Z) (v : option Result)
    (c : list (Key * (Z * option Result))) : list (Key * (Z * option Result)) :=
  (k, (expires, v)) :: filter (fun e => negb (key_eqb (fst e) k)) c.

(** [@cached(cache=ttl_cache_for_services)]: the key is the tuple of the
    arguments; a value is kept for [ttl], dropping entries at [maxsize] is
    left out; a call that raises stores nothing. *)
Definition get (alias owner name : option string) (wrap_service : bool)
  : M (option Result) :=
  fun st =>
    let k := (alias, owner, name, wrap_service) in
    match cache_find k (now st) (services_cache st) with
    | Some v => (Ok v, st)
    | None =>
        (v <- get_body alias owner name wrap_service ;;
         (fun st' =>
            (Ok v,
             with_caches (names_cache st')
               (cache_store k (now st' + ttl) v (services_cache st')) st'))) st
    end.

(** The process the hub is created in: what [get_config_dir] reads, and
    the adapter [ServiceWrapper()] builds. *)
Record Process : Type := {
  win32 : bool;
  APPDATA : option string;
  XDG_DATA_HOME : option string;
  home : string;
  path_join : string -> string -> string;
  new_wrapper : ServiceWrapper
}.

Definition get_config_dir (p : Process) (app : string) : Outcome string :=
  if win32 p then
    match APPDATA p with
    | Some d => Ok (path_join p d app)
    | None => Raise TypeError
    end
  else
    match XDG_DATA_HOME p with
    | Some d => Ok (path_join p d app)
    | None => Ok (path_join p (home p) app)
    end.

(** [StoryscriptHub.__init__].  The state it starts from is that of the
    process (the store on disk, the clock, the caches of the class); the
    [AutoUpdateThread] it starts runs beside it. *)
Definition init (p : Process) (path : option string) (auto_update : bool)
    (wrapper : bool) (interval : Z) : M unit :=
  (fun st => (Ok tt, with_ctl (UpdateController_init interval) st)) ;;
  path <- match path with
          | None => lift (get_config_dir p ".storyscript")
          | Some d => ret d
          end ;;
  emit (EvMakedirs path) ;;
  (fun st => (Ok tt, with_wrapper None (with_db_path path st))) ;;
  (if wrapper then
     (fun st => (Ok tt, with_wrapper (Some (new_wrapper p)) st)) ;;
     update_cache ;;
     ret tt
   else ret tt) ;;
  if auto_update then
    fun st => (Ok tt, log EvStartThread (with_thread true st))
  else ret tt.

(** *** Runs on a small catalog *)

Definition payload (uuid nm : string) (al : json) (user : string) (tops conf : json) : json :=
  JDict [("service", JDict [("name", JStr nm); ("alias", al);
                            ("owner", JDict [("username", JStr user)]);
                            ("topics", tops); ("description", JStr "d");
                            ("isCertified", JBool false); ("public", JBool true)]);
         ("serviceUuid", JStr uuid); ("state", JStr "BETA");
         ("configuration", conf); ("readme", JStr "r")].

Definition widget : json :=
  payload "u1" "widget" (JStr "w") "acme" (JList [JStr "a"; JStr "b"]) (JDict [("x", JInt 1)]).

Definition gadget : json :=
  payload "u2" "gadget" JNull "acme" (JList []) JNull.

Definition fresh (interval : Z) : State :=
  {| ctl := UpdateController_init interval; service_wrapper := None;
     db_path := "/tmp/hub"; update_thread := false; db := [];
     names_cache := None; services_cache := []; now := 1000;
     remote := [Ok [widget; gadget]]; store_faults := []; others := []; trace := [] |}.

End Hub.

(** ** storyhub.sdk.service.Argument *)

Module Argument.
Import Json Hub.

(** An [Argument]: its four fields, and the [data] the base class
    [ServiceObject] is given.  The fields hold whatever Python value the
    dictionary had. *)
Record Argument : Type := {
  _name : json;
  _help_ : json;
  _type : json;
  _required : json;
  _data : json
}.

(** [d.get(key, default)]: only a [dict] has it. *)
Definition dict_get (k : string) (default : json) (j : json) : Outcome json :=
  match j with
  | JDict d =>
      match find (fun kv => String.eqb (fst kv) k) d with
      | Some kv => Ok (snd kv)
      | None => Ok default
      end
  | _ => Raise (AttributeError "get")
  end.

Definition from_dict (data : json) : Outcome Argument :=
  obind (getitem "name" data) (fun name =>
  obind (getitem "argument" data) (fun argument =>
  obind (dict_get "help" (JStr ".not.available") argument) (fun help_ =>
  obind (getitem "type" argument) (fun type_ =>
  obind (dict_get "required" (JBool false) argument) (fun required_ =>
  Ok {| _name := name; _help_ := help_; _type := type_;
        _required := required_; _data := data |}))))).

Definition name (a : Argument) : json := _name a.

Definition help (a : Argument) : json := _help_ a.

Definition type (a : Argument) : json := _type a.

Definition required (a : Argument) : json := _required a.

Definition flush_argument : json :=
  JDict [("name", JStr "flush");
         ("argument", JDict [("in", JStr "responseBody"); ("type", JStr "boolean");
                             ("required", JBool false)])].

End Argument.

(** ** The words of the statements *)

Module Notions.
Import Json Hub.
Local Open Scope Z_scope.

Definition is_sleep (e : Event) : bool :=
  match e with
  | EvSleep => true
  | _ => false
  end.

(** How often the thread slept. *)
Definition sleeps (tr : list Event) : nat := List.length (filter is_sleep tr).

(** No other thread completes a refresh during the next [n] sleeps. *)
Fixpoint quiet (n : nat) (o : list (option Completion)) : bool :=
  match n, o with
  | O, _ => true
  | S _, [] => true
  | S n', None :: r => quiet n' r
  | S _, Some _ :: _ => false
  end.

Definition status (st : State) : Status := update_status (ctl st).

(** What [check_last_update_run] answers. *)
Definition recent (st : State) : bool :=
  match last_update_run (ctl st) with
  | None => true
  | Some last => negb (now st - last <? update_interval (ctl st))
  end.

Definition set_status (s : Status) (st : State) : State :=
  with_ctl {| last_update_run := last_update_run (ctl st);
              update_interval := update_interval (ctl st);
              update_status := s |} st.

(** The rows [update_cache] makes of the payloads, up to the first payload
    that is refused. *)
Fixpoint rows_of (services : list json) : Outcome (list Service) :=
  match services with
  | [] => Ok []
  | p :: rest =>
      obind (row_of_payload p) (fun row =>
      obind (rows_of rest) (fun rows => Ok (row :: rows)))
  end.

Fixpoint created (services : list json) : list Event :=
  match services with
  | [] => []
  | p :: rest =>
      match row_of_payload p with
      | Ok row => EvCreate (service_uuid row) :: created rest
      | Raise _ => []
      end
  end.

(** [update_cache] once the gate has said yes. *)
Definition after_gate : M bool :=
  (services <- get_all ;;
   (fun st =>
      match service_wrapper st with
      | Some sw =>
          (Ok tt, log EvReload (with_wrapper (Some (reload_services services sw)) st))
      | None => (Ok tt, st)
      end) ;;
   replace_all services ;;
   clear_caches ;;
   mark_status_updated ;;
   ret true)%hub.

Definition is_write (e : Event) : bool :=
  match e with
  | EvSetStatus _ | EvSetLastRun _ => true
  | _ => false
  end.

Definition is_fetch (e : Event) : bool :=
  match e with
  | EvFetch => true
  | _ => false
  end.

Definition is_store_write (e : Event) : bool :=
  match e with
  | EvBegin | EvDeleteAll | EvCreate _ | EvCommit | EvRollback => true
  | _ => false
  end.

(** What the pipeline does between the fetch and the end. *)
Definition is_pipeline (e : Event) : bool :=
  match e with
  | EvReload | EvBegin | EvDeleteAll | EvCreate _ | EvCommit | EvRollback => true
  | _ => false
  end.

Definition count (p : Event -> bool) (tr : list Event) : nat := List.length (filter p tr).

(** What the thread did between two states. *)
Definition since (st st' : State) : list Event := skipn (List.length (trace st)) (trace st').

(** What the surroundings answer to the next refresh: the rows to store,
    or the failure of the fetch, of a payload or of the store. *)
Definition answered (st : State) : Outcome (list Service) :=
  obind (hd (Raise TransportFailure) (remote st)) (fun services =>
  obind (rows_of services) (fun rows =>
  if hd false (store_faults st) then Raise StoreFailure else Ok rows)).

Definition reloaded (services : list json) (w : option ServiceWrapper) : option ServiceWrapper :=
  match w with
  | Some sw => Some (reload_services services sw)
  | None => None
  end.

Definition failing : State := with_remote [Raise TransportFailure] (fresh 60000).

Definition faulty : State := with_store_faults [true] (fresh 60000).

(** Whether [update_lock] is held after a trace, and the writes to the
    refresh state (phase, time stamp) made while it is not held. *)
Fixpoint held_after (held : bool) (tr : list Event) : bool :=
  match tr with
  | [] => held
  | EvAcquire update_lock :: r => held_after true r
  | EvRelease update_lock :: r => held_after false r
  | _ :: r => held_after held r
  end.

Fixpoint unguarded (held : bool) (tr : list Event) : list Event :=
  match tr with
  | [] => []
  | EvAcquire update_lock :: r => unguarded true r
  | EvRelease update_lock :: r => unguarded false r
  | e :: r =>
      if is_write e && negb held then e :: unguarded held r else unguarded held r
  end.

(** The clock moves on between two calls. *)
Definition elapse (d : Z) (st : State) : State := with_now (now st + d) st.

(** The alias splits at its one separator into two parts that are both
    non-empty. *)
Definition qualified (a : string) : bool :=
  Nat.eqb (count_char slash a) 1 &&
  match split_char slash a with
  | [String _ _; String _ _] => true
  | _ => false
  end.

Definition aliased : State :=
  with_db [{| service_uuid := "u3"; name := "widget"; alias := Some "/widget";
              username := "acme"; description := JNull; certified := false;
              public := true; topics := JNull; state := "BETA";
              configuration := JNull; readme := JNull; raw_data := "{}" |}]
    (fresh 60000).

(** The query [_get] sends to the store, and what the store answers. *)
Definition query_of (alias owner name : option string) : Query :=
  match alias with
  | Some a =>
      if Nat.eqb (count_char slash a) 1 then
        match split_char slash a with
        | [o; n] => ByOwnerName (Some o) (Some n)
        | _ => ByAlias a
        end
      else if truthy alias then ByAlias a
      else ByOwnerName owner name
  | None => ByOwnerName owner name
  end.

Definition lookup (q : Query) (rows : list Service) : option Service :=
  match q with
  | ByAlias a => find (alias_is a) rows
  | ByOwnerName o n => find (owner_name_is o n) rows
  | Names => None
  end.

Definition is_gate (e : Event) : bool :=
  match e with
  | EvAcquire update_lock => true
  | _ => false
  end.

Definition is_select (e : Event) : bool :=
  match e with
  | EvSelect _ => true
  | _ => false
  end.

(** The adapter, when there is one, does not know the service. *)
Definition adapter_miss (alias owner name : option string) (st : State) : Prop :=
  match service_wrapper st with
  | Some sw => sw_get sw alias owner name
  | None => None
  end = None.

(** The state in which the forced refresh of [get] starts: the first query
    and the query under the retry lock have both found nothing. *)
Definition before_refresh (q : Query) (st : State) : State :=
  log (EvSelect q) (log (EvAcquire retry_lock) (log (EvSelect q) st)).

Definition payload_topics (p : json) : Outcome json :=
  obind (getitem "service" p) (getitem "topics").

Definition payload_configuration (p : json) : Outcome json :=
  getitem "configuration" p.

(** A stored field read back: [None] stays, a text is deserialized. *)
Definition deserialized (v : json) : Outcome json :=
  match v with
  | JNull => Ok JNull
  | JStr t =>
      match loads t with
      | Some j => Ok j
      | None => Raise JSONDecodeError
      end
  | _ => Raise TypeError
  end.

Definition widget_row : Service :=
  {| service_uuid := "u1"; name := "widget"; alias := Some "w"; username := "acme";
     description := JStr "d"; certified := false; public := true;
     topics := JStr (dumps (JList [JStr "a"; JStr "b"])); state := "BETA";
     configuration := JStr (dumps (JDict [("x", JInt 1)])); readme := JStr "r";
     raw_data := dumps widget |}.

(** The alias entry of a record: one when the alias is not empty. *)
Definition alias_entry (s : Service) : list string :=
  match alias s with
  | Some (String c r) => [String c r]
  | _ => []
  end.

(** The compound entry of a record. *)
Definition compound (s : Service) : string :=
  (username s ++ String slash (name s))%string.

Definition adapter_hit (alias owner name : option string) (st : State) : option Hit :=
  match service_wrapper st with
  | Some sw => sw_get sw alias owner name
  | None => None
  end.

Definition adapter : ServiceWrapper :=
  {| sw_services := []; sw_lookup := fun _ _ _ _ => None |}.

Definition adapted : State := with_wrapper (Some adapter) (fresh 60000).

(** The directory of the store: the one given, or the default one. *)
Definition db_dir (p : Process) (path : option string) : Outcome string :=
  match path with
  | None => get_config_dir p ".storyscript"
  | Some d => Ok d
  end.

(** The hub as [__init__] has set it up when it reaches [update_cache]. *)
Definition configured (p : Process) (dir : string) (interval : Z) (st : State) : State :=
  with_wrapper (Some (new_wrapper p))
    (with_wrapper None
       (with_db_path dir
          (log (EvMakedirs dir) (with_ctl (UpdateController_init interval) st)))).

Definition posix : Process :=
  {| win32 := false; APPDATA := None; XDG_DATA_HOME := None; home := "/home/u/";
     path_join := fun a b => (a ++ b)%string; new_wrapper := adapter |}.

(** What the gate leaves alone unless another thread completes a refresh
    while it waits. *)
Definition same_store (st st' : State) : Prop :=
  db st' = db st /\ names_cache st' = names_cache st /\
  services_cache st' = services_cache st /\ ctl st' = ctl st /\
  db_path st' = db_path st /\ update_thread st' = update_thread st.

Definition emptied : State := with_remote [Ok []] aliased.

Definition inflight : State :=
  with_others [None; Some {| done_rows := [widget_row]; done_at := 1700 |}]
    (with_ctl {| last_update_run := None; update_interval := 60000;
                 update_status := UPDATING |} (fresh 60000)).

Definition settled : State :=
  with_ctl {| last_update_run := Some 1000; update_interval := 60000;
              update_status := UPDATED |} (fresh 60000).

Definition stuck : State :=
  with_ctl {| last_update_run := None; update_interval := 60000;
              update_status := UPDATING |} (fresh 60000).

Definition windows : Process :=
  {| win32 := true; APPDATA := None; XDG_DATA_HOME := None; home := "C:/";
     path_join := fun a b => (a ++ b)%string; new_wrapper := adapter |}.

End Notions.

(** * Facts *)

(** ** Strings *)

Lemma append_assoc (a b c : string) : (a ++ b) ++ c = a ++ (b ++ c).
Proof. induction a as [|x a IH]; simpl; [reflexivity | now rewrite IH]. Qed.

Lemma append_nil_r (a : string) : a ++ EmptyString = a.
Proof. induction a as [|x a IH]; simpl; [reflexivity | now rewrite IH]. Qed.

Lemma length_append (a b : string) :
  String.length (a ++ b) = String.length a + String.length b.
Proof. induction a as [|x a IH]; simpl; [reflexivity | now rewrite IH]. Qed.

Module JsonFacts.
Import Json.

(** *** Round trip: [loads (dumps v) = v] *)

Ltac each_char c :=
  let b0 := fresh in let b1 := fresh in let b2 := fresh in let b3 := fresh in
  let b4 := fresh in let b5 := fresh in let b6 := fresh in let b7 := fresh in
  destruct c as [b0 b1 b2 b3 b4 b5 b6 b7];
  destruct b0, b1, b2, b3, b4, b5, b6, b7.

Lemma skip_ws_head s r : head_not_ws s -> skip_ws (s ++ r) = s ++ r.
Proof. destruct s as [|c s]; simpl; [tauto | intros ->; reflexivity]. Qed.

Lemma head_not_ws_app s r : head_not_ws s -> head_not_ws (s ++ r).
Proof. destruct s; simpl; tauto. Qed.

Lemma stop_float r : stop r = true -> float_follows r = false.
Proof. destruct r as [|c r]; [reflexivity|]. each_char c; simpl; congruence. Qed.

Lemma stop_digits r : stop r = true -> scan_digits r = (Nil, r).
Proof. destruct r as [|c r]; [reflexivity|]. each_char c; simpl; congruence. Qed.

Lemma stop_skip_ws r : stop r = true -> skip_ws r = r.
Proof. destruct r as [|c r]; [reflexivity|]. each_char c; simpl; congruence. Qed.

Lemma scanstring_escape_char c r :
  scanstring (escape_char c ++ r) =
  match scanstring r with
  | Some (t, r1) => Some (String c t, r1)
  | None => None
  end.
Proof. each_char c; reflexivity. Qed.

Lemma scanstring_escape_chars s r :
  scanstring (escape_chars s ++ String dquote r) = Some (s, r).
Proof.
  induction s as [|c s IH]; [reflexivity|].
  simpl escape_chars. rewrite append_assoc, scanstring_escape_char, IH.
  reflexivity.
Qed.

Lemma scan_digits_digits u r :
  stop r = true -> scan_digits (digits u ++ r) = (u, r).
Proof.
  intros Hr. induction u; simpl; try rewrite IHu; try reflexivity.
  now apply stop_digits.
Qed.

Lemma to_uint_head p u : Pos.to_uint p <> D0 u.
Proof.
  intros E.
  assert (N : unorm (Pos.to_uint p) = Pos.to_uint p).
  { rewrite <- (DecimalPos.Unsigned.to_of (Pos.to_uint p)).
    now rewrite DecimalPos.Unsigned.of_to. }
  rewrite E in N. unfold unorm in N. rewrite nzhead_D0 in N.
  destruct (nzhead u) eqn:Hn; try (now apply (nzhead_nonzero u u); rewrite Hn).
  apply (DecimalPos.Unsigned.to_uint_nonzero p). rewrite E, <- N. reflexivity.
Qed.

Lemma scan_uint_digits u r :
  u <> Nil -> (forall u', u <> D0 u') -> stop r = true ->
  scan_uint (digits u ++ r) = Some (u, r).
Proof.
  intros Hn Hz Hr.
  destruct u; try congruence; try (now elim (Hz u));
    simpl; rewrite (scan_digits_digits u r Hr); reflexivity.
Qed.

Lemma digits_num_head u :
  u <> Nil -> exists c t, digits u = String c t /\ num_head c = true /\
                          (N_of_ascii c =? 45)%N = false.
Proof. destruct u; try congruence; intros _; simpl; eauto. Qed.

Lemma scan_number_encode_int z r :
  stop r = true -> scan_number (encode_int z ++ r) = Some (JInt z, r).
Proof.
  intros Hr. unfold encode_int.
  pose proof (DecimalZ.of_to z) as Hz.
  destruct z as [|p|p]; simpl Z.to_int in *.
  - simpl. now rewrite (stop_float r Hr).
  - pose proof (scan_uint_digits (Pos.to_uint p) r
                  (DecimalPos.Unsigned.to_uint_nonnil p) (to_uint_head p) Hr) as Hs.
    destruct (digits_num_head (Pos.to_uint p)) as (c & t & E & _ & Hc);
      [apply DecimalPos.Unsigned.to_uint_nonnil|].
    rewrite E in *. cbn [append] in *. unfold scan_number.
    now rewrite Hc, Hs, (stop_float r Hr), Hz.
  - cbn [append scan_number]. change (N_of_ascii "-" =? 45)%N with true. cbv iota.
    rewrite scan_uint_digits; auto using DecimalPos.Unsigned.to_uint_nonnil, to_uint_head.
    now rewrite (stop_float r Hr), Hz.
Qed.

Lemma encode_int_head z :
  exists c t, encode_int z = String c t /\ num_head c = true.
Proof.
  unfold encode_int. destruct z as [|p|p]; simpl Z.to_int.
  - simpl; eauto.
  - destruct (digits_num_head (Pos.to_uint p)) as (c & t & E & H & _);
      [apply DecimalPos.Unsigned.to_uint_nonnil | eauto].
  - simpl; eauto.
Qed.

Lemma scan_once_number fuel c r :
  num_head c = true -> scan_once (S fuel) (String c r) = scan_number (String c r).
Proof. each_char c; intros H; try discriminate H; reflexivity. Qed.

Lemma num_head_not_ws c : num_head c = true -> is_ws c = false.
Proof. each_char c; intros H; try discriminate H; reflexivity. Qed.

Lemma dumps_head v : head_not_ws (dumps v).
Proof.
  destruct v as [|[]|z|s|l|d]; try reflexivity.
  cbn [dumps]. destruct (encode_int_head z) as (c & t & -> & H).
  now apply num_head_not_ws.
Qed.

Lemma num_head_not_close c : num_head c = true -> (N_of_ascii c =? 93)%N = false.
Proof. each_char c; intros H; try discriminate H; reflexivity. Qed.

Lemma dumps_value_head v : value_head (dumps v).
Proof.
  destruct v as [|[]|z|s|l|d]; try (split; reflexivity).
  cbn [dumps]. destruct (encode_int_head z) as (c & t & -> & H).
  split; [now apply num_head_not_ws | now apply num_head_not_close].
Qed.

Lemma value_head_app s r : value_head s -> value_head (s ++ r).
Proof. destruct s; simpl; tauto. Qed.

Lemma value_head_skip s : value_head s -> skip_ws s = s.
Proof. destruct s as [|c s]; simpl; [tauto | intros [-> _]; reflexivity]. Qed.

Lemma join_value_head l : l <> [] -> value_head (join_items (map dumps l)).
Proof.
  destruct l as [|x [|y l]]; [congruence | |]; intros _; simpl.
  - apply dumps_value_head.
  - apply value_head_app, dumps_value_head.
Qed.

Lemma scan_once_list fuel t :
  value_head t ->
  scan_once (S fuel) (String "[" t) =
  match scan_items fuel t with
  | Some (vs, r) => Some (JList vs, r)
  | None => None
  end.
Proof.
  destruct t as [|c t]; simpl; [tauto|]. intros [Hw Hc]. now rewrite Hw, Hc.
Qed.

Lemma scan_once_dict fuel t :
  scan_once (S fuel) (String "{" (String dquote t)) =
  match scan_members fuel (String dquote t) with
  | Some (pairs, r) => Some (JDict (dict_of_pairs pairs), r)
  | None => None
  end.
Proof. reflexivity. Qed.

Lemma scan_once_string fuel s r :
  scan_once (S fuel) (encode_string s ++ r) = Some (JStr s, r).
Proof.
  unfold encode_string. cbn [append]. rewrite append_assoc. cbn [append].
  change (scan_once (S fuel) (String dquote (escape_chars s ++ String dquote r)))
    with (match scanstring (escape_chars s ++ String dquote r) with
          | Some (t, r1) => Some (JStr t, r1)
          | None => None
          end).
  now rewrite scanstring_escape_chars.
Qed.

Lemma scan_items_S fuel s :
  scan_items (S fuel) s =
  match scan_once fuel s with
  | Some (v, r) =>
      match skip_ws r with
      | String c r1 =>
          if (N_of_ascii c =? 44)%N then
            match scan_items fuel (skip_ws r1) with
            | Some (vs, r2) => Some (v :: vs, r2)
            | None => None
            end
          else if (N_of_ascii c =? 93)%N then Some ([v], r1)
          else None
      | EmptyString => None
      end
  | None => None
  end.
Proof. reflexivity. Qed.

Lemma scan_members_S fuel k t :
  scan_members (S fuel) (encode_string k ++ String ":" (String " " t)) =
  match scan_once fuel (skip_ws t) with
  | Some (v, r3) =>
      match skip_ws r3 with
      | String c1 r4 =>
          if (N_of_ascii c1 =? 44)%N then
            match scan_members fuel (skip_ws r4) with
            | Some (ps, r5) => Some ((k, v) :: ps, r5)
            | None => None
            end
          else if (N_of_ascii c1 =? 125)%N then Some ([(k, v)], r4)
          else None
      | EmptyString => None
      end
  | None => None
  end.
Proof.
  unfold encode_string. cbn [append scan_members]. change (N_of_ascii dquote =? 34)%N with true.
  cbv iota. rewrite append_assoc. cbn [append]. rewrite scanstring_escape_chars.
  reflexivity.
Qed.

Lemma scan_items_last fuel s x r :
  scan_once fuel s = Some (x, String "]" r) ->
  scan_items (S fuel) s = Some ([x], r).
Proof. intros H. rewrite scan_items_S, H. reflexivity. Qed.

Lemma scan_items_more fuel s x t :
  scan_once fuel s = Some (x, String "," (String " " t)) ->
  value_head t ->
  scan_items (S fuel) s =
  match scan_items fuel t with
  | Some (vs, r) => Some (x :: vs, r)
  | None => None
  end.
Proof.
  intros H Ht. rewrite scan_items_S, H.
  change (skip_ws (String "," (String " " t))) with (String "," (String " " t)).
  change (N_of_ascii "," =? 44)%N with true. cbv iota.
  change (skip_ws (String " " t)) with (skip_ws t).
  now rewrite value_head_skip.
Qed.

Lemma scan_members_last fuel k t v r :
  scan_once fuel t = Some (v, String "}" r) ->
  scan_members (S fuel) (encode_string k ++ String ":" (String " " t)) = Some ([(k, v)], r).
Proof.
  intros H. rewrite scan_members_S.
  assert (Hs : skip_ws t = t).
  { destruct fuel; [discriminate|]. destruct t as [|c t]; [reflexivity|].
    revert H. each_char c; try reflexivity; discriminate. }
  rewrite Hs, H. reflexivity.
Qed.

Lemma scan_members_more fuel k t v u :
  scan_once fuel t = Some (v, String "," (String " " u)) ->
  value_head u ->
  scan_members (S fuel) (encode_string k ++ String ":" (String " " t)) =
  match scan_members fuel u with
  | Some (ps, r) => Some ((k, v) :: ps, r)
  | None => None
  end.
Proof.
  intros H Hu. rewrite scan_members_S.
  assert (Hs : skip_ws t = t).
  { destruct fuel; [discriminate|]. destruct t as [|c t]; [reflexivity|].
    revert H. each_char c; try reflexivity; discriminate. }
  rewrite Hs, H.
  change (skip_ws (String "," (String " " u))) with (String "," (String " " u)).
  change (N_of_ascii "," =? 44)%N with true. cbv iota.
  change (skip_ws (String " " u)) with (skip_ws u).
  now rewrite value_head_skip.
Qed.

(** Keys that are pairwise distinct survive [dict(pairs)] as they are. *)
Lemma distinct_NoDup l : distinct l = true -> NoDup l.
Proof.
  induction l as [|x l IH]; simpl; [constructor|].
  intros H. apply andb_true_iff in H as [H1 H2]. constructor; auto.
  intros Hin. apply negb_true_iff in H1.
  assert (existsb (String.eqb x) l = true); [|congruence].
  apply existsb_exists. exists x. split; [assumption | apply String.eqb_refl].
Qed.

Lemma dict_set_fresh k v d :
  ~ In k (map fst d) -> dict_set k v d = (d ++ [(k, v)])%list.
Proof.
  induction d as [|[k' v'] d IH]; simpl; [reflexivity|]. intros H.
  destruct (String.eqb_spec k' k) as [->|_]; [tauto|]. rewrite IH; tauto.
Qed.

Lemma dict_of_pairs_distinct d :
  distinct (map fst d) = true -> dict_of_pairs d = d.
Proof.
  intros H. apply distinct_NoDup in H. unfold dict_of_pairs.
  change d with ([] ++ d)%list in H at 1.
  change d with ([] ++ d)%list at 2.
  generalize dependent (@nil (string * json)).
  induction d as [|[k v] d IH]; intros acc H; simpl.
  - now rewrite List.app_nil_r.
  - rewrite dict_set_fresh.
    + rewrite IH; rewrite <- List.app_assoc; [reflexivity | exact H].
    + rewrite map_app in H. simpl in H. apply NoDup_remove_2 in H.
      intros Hin. apply H. apply in_or_app. now left.
Qed.

Lemma dumps_dict d :
  dumps (JDict d) = "{" ++ join_items (map member_text d) ++ "}".
Proof. reflexivity. Qed.

Lemma dumps_length_pos v : 1 <= String.length (dumps v).
Proof.
  pose proof (dumps_value_head v) as H. destruct (dumps v); simpl in *; [tauto | lia].
Qed.

Lemma roundtrip_fuel fuel : roundtrip_at fuel.
Proof.
  induction fuel as [|fuel (IHv & IHl & IHd)]; unfold roundtrip_at.
  { repeat split; intros; try lia.
    pose proof (dumps_length_pos v). lia. }
  repeat split.
  - (* one value *)
    intros v r Hwf Hr Hlen.
    destruct v as [|b|z|s|l|d].
    + reflexivity.
    + destruct b; reflexivity.
    + cbn [dumps]. destruct (encode_int_head z) as (c & t & E & Hc).
      pose proof (scan_number_encode_int z r Hr) as Hn.
      rewrite E in *. cbn [append] in *. now rewrite scan_once_number.
    + cbn [dumps]. now apply scan_once_string.
    + cbn [dumps wf] in *. cbn [append]. rewrite append_assoc. cbn [append].
      destruct l as [|x l]; [reflexivity|].
      rewrite scan_once_list by (apply value_head_app, join_value_head; congruence).
      rewrite IHl; try congruence.
      rewrite !length_append in Hlen. cbn [String.length] in Hlen. lia.
    + rewrite dumps_dict in *. cbn [wf] in Hwf. cbn [append]. rewrite append_assoc.
      cbn [append]. apply andb_true_iff in Hwf as [Hk Hv].
      destruct d as [|kv d]; [reflexivity|].
      assert (Hq : exists t, join_items (map member_text (kv :: d)) = String dquote t).
      { destruct d; simpl; unfold member_text, encode_string; simpl; eauto. }
      destruct Hq as [t Ht].
      pose proof (IHd (kv :: d) r) as Hm. rewrite Ht in *. cbn [append] in *.
      rewrite scan_once_dict, Hm; try congruence.
      * now rewrite dict_of_pairs_distinct.
      * cbn [String.length append] in *. rewrite length_append in Hlen.
        cbn [String.length] in Hlen. lia.
  - (* the items of a list *)
    intros l r Hne Hwf Hlen.
    destruct l as [|x l]; [congruence|]. cbn [forallb] in Hwf.
    apply andb_true_iff in Hwf as [Hx Hl].
    destruct l as [|y l].
    + cbn [map join_items] in *.
      apply scan_items_last, IHv; auto; lia.
    + change (join_items (map dumps (x :: y :: l)))
        with (dumps x ++ String "," (String " " (join_items (map dumps (y :: l))))) in *.
      rewrite append_assoc. cbn [append]. rewrite length_append in Hlen.
      cbn [String.length] in Hlen.
      rewrite (scan_items_more fuel _ x
                 (join_items (map dumps (y :: l)) ++ String "]" r)).
      * rewrite IHl by (auto; try congruence; lia). reflexivity.
      * apply IHv; auto; lia.
      * apply value_head_app, join_value_head; congruence.
  - (* the members of a dict *)
    intros d r Hne Hwf Hlen.
    destruct d as [|[k v] d]; [congruence|]. cbn [forallb snd] in Hwf.
    apply andb_true_iff in Hwf as [Hx Hd].
    destruct d as [|kv d].
    + cbn [map join_items] in *. unfold member_text in *. cbn [fst snd] in *.
      rewrite !append_assoc. cbn [append].
      rewrite !length_append in Hlen. cbn [String.length] in Hlen.
      apply scan_members_last, IHv; auto; lia.
    + change (join_items (map member_text ((k, v) :: kv :: d)))
        with ((encode_string k ++ String ":" (String " " (dumps v)))
                ++ String "," (String " " (join_items (map member_text (kv :: d))))) in *.
      rewrite !append_assoc. cbn [append]. rewrite ?append_assoc. cbn [append].
      repeat (rewrite length_append in Hlen || cbn [String.length] in Hlen).
      rewrite (scan_members_more fuel k _ v
                 (join_items (map member_text (kv :: d)) ++ String "}" r)).
      * rewrite IHd by (auto; try congruence; lia). reflexivity.
      * apply IHv; auto; lia.
      * destruct d; simpl; unfold member_text, encode_string; simpl; split; reflexivity.
Qed.

(** [json.loads (json.dumps v)] is [v]. *)
Lemma loads_dumps v : wf v = true -> loads (dumps v) = Some v.
Proof.
  intros Hwf. unfold loads.
  rewrite value_head_skip by apply dumps_value_head.
  destruct (roundtrip_fuel (S (String.length (dumps v)))) as (Hv & _ & _).
  specialize (Hv v EmptyString Hwf eq_refl). rewrite append_nil_r in Hv.
  rewrite Hv by lia. reflexivity.
Qed.

End JsonFacts.

(** ** The refresh gate *)

Import Json Hub Notions.
Local Open Scope Z_scope.

Lemma sleeps_app a b : sleeps (a ++ b) = (sleeps a + sleeps b)%nat.
Proof. unfold sleeps. now rewrite filter_app, length_app. Qed.

Lemma status_eqb_eq a b : status_eqb a b = true <-> a = b.
Proof. destruct a, b; simpl; split; congruence. Qed.

Lemma sleep_spec st :
  exists st',
    sleep st = (Ok tt, st') /\
    trace st' = (trace st ++ [EvSleep])%list /\
    now st' = now st + 500 /\
    others st' = tl (others st) /\
    update_interval (ctl st') = update_interval (ctl st) /\
    service_wrapper st' = service_wrapper st /\
    remote st' = remote st /\
    store_faults st' = store_faults st /\
    match others st with
    | Some c :: _ =>
        status st' = UPDATED /\ last_update_run (ctl st') = Some (done_at c)
    | _ => ctl st' = ctl st /\ db st' = db st
    end.
Proof.
  unfold sleep. cbv zeta.
  destruct (others st) as [|[c|] rest] eqn:E; eexists; (split; [reflexivity|]);
    cbn; rewrite ?E; repeat split; reflexivity.
Qed.

(** The bounded wait of the gate. *)
Lemma wait_while_updating_spec n : forall st,
  exists st' d,
    wait_while_updating n st = (Ok tt, st') /\
    trace st' = (trace st ++ d)%list /\
    (sleeps d <= n)%nat /\
    d = repeat EvSleep (sleeps d) /\
    now st' = now st + 500 * Z.of_nat (sleeps d) /\
    update_interval (ctl st') = update_interval (ctl st) /\
    service_wrapper st' = service_wrapper st /\
    remote st' = remote st /\
    store_faults st' = store_faults st /\
    (status st <> UPDATING -> st' = st) /\
    (status st = UPDATING ->
       if quiet n (others st)
       then status st' = UPDATING /\ sleeps d = n /\ ctl st' = ctl st /\ db st' = db st
       else status st' = UPDATED).
Proof.
  induction n as [|n IH]; intros st.
  - exists st, []. cbn. rewrite List.app_nil_r, Z.add_0_r.
    repeat split; auto.
  - cbn [wait_while_updating]. fold (status st).
    destruct (status_eqb (status st) UPDATING) eqn:E.
    + apply status_eqb_eq in E.
      destruct (sleep_spec st) as (st1 & Hs & Ht & Hn & Ho & Hi & Hw & Hr & Hf & Hc).
      destruct (IH st1)
        as (st' & d & Hs' & Ht' & Hle & Hrep & Hn' & Hi' & Hw' & Hr' & Hf' & Hstay & Hwait).
      exists st', (EvSleep :: d)%list.
      unfold bind. rewrite Hs, Hs'.
      split; [reflexivity|]. split.
      { rewrite Ht', Ht, <- List.app_assoc. reflexivity. }
      change (sleeps (EvSleep :: d)) with (S (sleeps d)).
      split; [lia|]. split; [cbn [repeat]; congruence|]. split; [lia|].
      split; [congruence|]. split; [congruence|]. split; [congruence|].
      split; [congruence|]. split; [congruence|]. intros _.
      destruct (others st) as [|[c|] rest] eqn:Eo; cbn [quiet tl] in *.
      * destruct Hc as [Hc Hd]. assert (Hu : status st1 = UPDATING)
          by (unfold status in *; congruence).
        specialize (Hwait Hu). rewrite Ho in Hwait.
        destruct n; cbn [quiet] in Hwait;
          destruct Hwait as (H1 & H2 & H3 & H4); repeat split; try congruence; lia.
      * destruct Hc as [Hc _]. rewrite Hstay; [assumption|].
        rewrite Hc. discriminate.
      * destruct Hc as [Hc Hd]. assert (Hu : status st1 = UPDATING)
          by (unfold status in *; congruence).
        specialize (Hwait Hu). rewrite Ho in Hwait.
        destruct (quiet n rest); [|assumption].
        destruct Hwait as (H1 & H2 & H3 & H4); repeat split; try congruence; lia.
    + exists st, []. rewrite List.app_nil_r. cbn. rewrite Z.add_0_r.
      repeat split; auto; try lia.
      intros Hu. rewrite Hu in E. discriminate.
Qed.

Lemma check_last_update_run_eq st : check_last_update_run st = (Ok (recent st), st).
Proof.
  unfold check_last_update_run, recent.
  destruct (last_update_run (ctl st)); [|reflexivity].
  destruct (_ <? _); reflexivity.
Qed.

Lemma go_nogo_admit st :
  status st <> UPDATING -> recent st = true ->
  go_nogo_execute_update st =
  (Ok true,
   log (EvRelease update_lock)
     (log (EvSetStatus UPDATING) (set_status UPDATING (log (EvAcquire update_lock) st)))).
Proof.
  intros Hs Hr. unfold go_nogo_execute_update, with_lock, bind.
  rewrite check_last_update_run_eq.
  change (recent (log (EvAcquire update_lock) st)) with (recent st). rewrite Hr.
  unfold is_updating, status in *. cbn [ctl log with_trace].
  destruct (update_status (ctl st)); try congruence; reflexivity.
Qed.

Lemma go_nogo_skip st :
  status st <> UPDATING -> recent st = false ->
  go_nogo_execute_update st =
  (Ok false, log (EvRelease update_lock) (log (EvAcquire update_lock) st)).
Proof.
  intros Hs Hr. unfold go_nogo_execute_update, with_lock, bind.
  rewrite check_last_update_run_eq.
  change (recent (log (EvAcquire update_lock) st)) with (recent st). rewrite Hr.
  cbn [andb]. unfold ret at 1.
  destruct (wait_while_updating_spec 5 (log (EvAcquire update_lock) st))
    as (st1 & d & Hw & _ & _ & _ & _ & _ & _ & _ & _ & Hstay & _).
  rewrite Hw, (Hstay Hs).
  change (update_status (ctl (log (EvAcquire update_lock) st))) with (status st).
  destruct (status st); try congruence; reflexivity.
Qed.

Lemma go_nogo_wait st :
  status st = UPDATING ->
  exists st' d,
    go_nogo_execute_update st = (Ok (quiet 5 (others st)), st') /\
    trace st' = (trace st ++ EvAcquire update_lock :: d ++ [EvRelease update_lock])%list /\
    (sleeps d <= 5)%nat /\
    d = repeat EvSleep (sleeps d) /\
    now st' = now st + 500 * Z.of_nat (sleeps d) /\
    update_interval (ctl st') = update_interval (ctl st) /\
    service_wrapper st' = service_wrapper st /\
    remote st' = remote st /\
    store_faults st' = store_faults st /\
    if quiet 5 (others st)
    then status st' = UPDATING /\ sleeps d = 5%nat /\ ctl st' = ctl st /\ db st' = db st
    else status st' = UPDATED.
Proof.
  intros Hs.
  destruct (wait_while_updating_spec 5 (log (EvAcquire update_lock) st))
    as (st1 & d & Hw & Ht & Hle & Hrep & Hn & Hi & Hsw & Hr & Hf & _ & Hq).
  specialize (Hq Hs). change (others (log (EvAcquire update_lock) st)) with (others st) in Hq.
  exists (log (EvRelease update_lock) st1), d.
  split.
  - unfold go_nogo_execute_update, with_lock, bind.
    rewrite check_last_update_run_eq.
    change (recent (log (EvAcquire update_lock) st)) with (recent st).
    destruct (recent st).
    + unfold is_updating.
      change (update_status (ctl (log (EvAcquire update_lock) st))) with (status st).
      rewrite Hs. cbn [andb negb]. rewrite Hw. fold (status st1).
      destruct (quiet 5 (others st)); [destruct Hq as [-> _] | rewrite Hq]; reflexivity.
    + unfold ret at 1. cbn [andb]. rewrite Hw. fold (status st1).
      destruct (quiet 5 (others st)); [destruct Hq as [-> _] | rewrite Hq]; reflexivity.
  - cbn [trace log with_trace]. rewrite Ht. cbn [trace log with_trace].
    rewrite <- !List.app_assoc. cbn [List.app].
    repeat split; auto.
Qed.

(** C2.  The gate's [go_nogo_execute_update]: when the phase is not
    [UPDATING] and either no refresh has succeeded yet or the time since
    the last one is at least the minimum interval, it returns [True], the
    phase becomes [UPDATING] and the thread does not sleep; when the phase
    is [UPDATING] it sleeps at most 5 times, 0.5 s each, and returns [False]
    if the phase left [UPDATING] during the wait (another thread completed
    its refresh) and [True] if it is still [UPDATING] after it; when the
    phase is not [UPDATING] and the interval has not elapsed it returns
    [False] and leaves the phase as it is. *)
Theorem C2_go_nogo_execute_update (st : State) :
  let r := fst (go_nogo_execute_update st) in
  let st' := snd (go_nogo_execute_update st) in
  (status st <> UPDATING ->
   (last_update_run (ctl st) = None \/
    exists last, last_update_run (ctl st) = Some last /\
                 now st - last >= update_interval (ctl st)) ->
   r = Ok true /\ status st' = UPDATING /\
   sleeps (trace st') = sleeps (trace st) /\ now st' = now st)
  /\
  (status st = UPDATING ->
   (sleeps (trace st') <= sleeps (trace st) + 5)%nat /\
   now st' = now st + 500 * Z.of_nat (sleeps (trace st') - sleeps (trace st)) /\
   r = Ok (quiet 5 (others st)) /\
   (status st' <> UPDATING -> r = Ok false) /\
   (status st' = UPDATING ->
    r = Ok true /\ sleeps (trace st') = (sleeps (trace st) + 5)%nat))
  /\
  (status st <> UPDATING ->
   (exists last, last_update_run (ctl st) = Some last /\
                 now st - last < update_interval (ctl st)) ->
   r = Ok false /\ status st' = status st /\
   sleeps (trace st') = sleeps (trace st) /\ now st' = now st).
Proof.
  cbv zeta. repeat split.
  - rewrite go_nogo_admit; [reflexivity | assumption |].
    unfold recent. destruct H0 as [-> | (last & -> & Hge)]; [reflexivity|].
    apply negb_true_iff, Z.ltb_ge. lia.
  - rewrite go_nogo_admit; [reflexivity | assumption |].
    unfold recent. destruct H0 as [-> | (last & -> & Hge)]; [reflexivity|].
    apply negb_true_iff, Z.ltb_ge. lia.
  - rewrite go_nogo_admit; [| assumption |].
    + cbn [snd trace log with_trace set_status with_ctl]. rewrite !sleeps_app.
      cbn. lia.
    + unfold recent. destruct H0 as [-> | (last & -> & Hge)]; [reflexivity|].
      apply negb_true_iff, Z.ltb_ge. lia.
  - rewrite go_nogo_admit; [reflexivity | assumption |].
    unfold recent. destruct H0 as [-> | (last & -> & Hge)]; [reflexivity|].
    apply negb_true_iff, Z.ltb_ge. lia.
  - destruct (go_nogo_wait st H) as (st' & d & -> & Ht & Hle & _).
    cbn [snd]. rewrite Ht, !sleeps_app.
    change (sleeps (EvAcquire update_lock :: d ++ [EvRelease update_lock]))
      with (sleeps (d ++ [EvRelease update_lock])).
    rewrite sleeps_app. cbn. lia.
  - destruct (go_nogo_wait st H) as (st' & d & -> & Ht & Hle & _ & Hn & _).
    cbn [snd]. rewrite Ht, !sleeps_app.
    change (sleeps (EvAcquire update_lock :: d ++ [EvRelease update_lock]))
      with (sleeps (d ++ [EvRelease update_lock])).
    rewrite sleeps_app, Hn. cbn [sleeps filter is_sleep List.length].
    f_equal. f_equal. lia.
  - destruct (go_nogo_wait st H) as (st' & d & -> & _). reflexivity.
  - destruct (go_nogo_wait st H) as (st' & d & -> & _ & _ & _ & _ & _ & _ & _ & _ & Hq).
    cbn [fst snd]. destruct (quiet 5 (others st)); [|reflexivity].
    destruct Hq as [Hq _]. intros Hne. congruence.
  - destruct (go_nogo_wait st H) as (st' & d & E & _ & _ & _ & _ & _ & _ & _ & _ & Hq).
    rewrite E in *. cbn [fst snd] in *. destruct (quiet 5 (others st)); [reflexivity|].
    rewrite Hq in H0. discriminate.
  - destruct (go_nogo_wait st H) as (st' & d & E & Ht & _ & _ & _ & _ & _ & _ & _ & Hq).
    rewrite E in *. cbn [fst snd] in *. rewrite Ht, !sleeps_app.
    change (sleeps (EvAcquire update_lock :: d ++ [EvRelease update_lock]))
      with (sleeps (d ++ [EvRelease update_lock])).
    rewrite sleeps_app. destruct (quiet 5 (others st)).
    + destruct Hq as (_ & -> & _). cbn. lia.
    + rewrite Hq in H0. discriminate.
  - rewrite go_nogo_skip; [reflexivity | assumption |].
    unfold recent. destruct H0 as (last & -> & Hlt).
    apply negb_false_iff, Z.ltb_lt. lia.
  - rewrite go_nogo_skip; [reflexivity | assumption |].
    unfold recent. destruct H0 as (last & -> & Hlt).
    apply negb_false_iff, Z.ltb_lt. lia.
  - rewrite go_nogo_skip; [| assumption |].
    + cbn [snd trace log with_trace]. rewrite !sleeps_app. cbn. lia.
    + unfold recent. destruct H0 as (last & -> & Hlt).
      apply negb_false_iff, Z.ltb_lt. lia.
  - rewrite go_nogo_skip; [reflexivity | assumption |].
    unfold recent. destruct H0 as (last & -> & Hlt).
    apply negb_false_iff, Z.ltb_lt. lia.
Qed.

Lemma C2_witness :
  (status (fresh 60000) <> UPDATING /\
   fst (go_nogo_execute_update (fresh 60000)) = Ok true /\
   status (snd (go_nogo_execute_update (fresh 60000))) = UPDATING) /\
  (status inflight = UPDATING /\
   fst (go_nogo_execute_update inflight) = Ok false) /\
  (status stuck = UPDATING /\
   fst (go_nogo_execute_update stuck) = Ok true) /\
  (status settled <> UPDATING /\
   fst (go_nogo_execute_update settled) = Ok false).
Proof.
  pose proof (proj1 (C2_go_nogo_execute_update (fresh 60000))) as H1.
  pose proof (proj1 (proj2 (C2_go_nogo_execute_update inflight))) as H2.
  pose proof (proj1 (proj2 (C2_go_nogo_execute_update stuck))) as H3.
  pose proof (proj2 (proj2 (C2_go_nogo_execute_update settled))) as H4.
  cbv zeta in H1, H2, H3, H4.
  assert (N1 : status (fresh 60000) <> UPDATING) by discriminate.
  assert (N4 : status settled <> UPDATING) by discriminate.
  specialize (H1 N1 (or_introl eq_refl)).
  specialize (H2 eq_refl). specialize (H3 eq_refl).
  assert (L4 : exists last, last_update_run (ctl settled) = Some last /\
                            now settled - last < update_interval (ctl settled))
    by (exists 1000; split; [reflexivity | cbn; lia]).
  specialize (H4 N4 L4).
  split; [split; [exact N1 | split; [apply H1 | apply H1]]|].
  split; [split; [reflexivity | exact (proj1 (proj2 (proj2 H2)))]|].
  split; [split; [reflexivity | exact (proj1 (proj2 (proj2 H3)))]|].
  split; [exact N4 | apply H4].
Defined.

(** ** The refresh pipeline *)

Lemma since_app st st' d : trace st' = (trace st ++ d)%list -> since st st' = d.
Proof.
  intros E. unfold since. rewrite E, skipn_app, skipn_all, Nat.sub_diag. reflexivity.
Qed.

Lemma count_app p a b : count p (a ++ b) = (count p a + count p b)%nat.
Proof. unfold count. now rewrite filter_app, length_app. Qed.

Lemma count_cons p e l :
  count p (e :: l) = ((if p e then 1 else 0) + count p l)%nat.
Proof. unfold count. cbn [filter]. destruct (p e); reflexivity. Qed.

Lemma with_trace_same st : with_trace (trace st) st = st.
Proof. destruct st; reflexivity. Qed.

Lemma created_no_write services : count is_write (created services) = 0%nat.
Proof.
  induction services as [|p rest IH]; [reflexivity|]. cbn [created].
  destruct (row_of_payload p); [exact IH | reflexivity].
Qed.

Lemma created_no_fetch services : count is_fetch (created services) = 0%nat.
Proof.
  induction services as [|p rest IH]; [reflexivity|]. cbn [created].
  destruct (row_of_payload p); [exact IH | reflexivity].
Qed.

Lemma created_pipeline services : forallb is_pipeline (created services) = true.
Proof.
  induction services as [|p rest IH]; [reflexivity|]. cbn [created].
  destruct (row_of_payload p); [exact IH | reflexivity].
Qed.

Lemma create_all_eq services : forall acc st,
  create_all services acc st =
  (obind (rows_of services) (fun rows => Ok (acc ++ rows)%list),
   with_trace (trace st ++ created services)%list st).
Proof.
  induction services as [|p rest IH]; intros acc st.
  - cbn. now rewrite !List.app_nil_r, with_trace_same.
  - cbn [create_all rows_of created]. unfold bind, lift, emit.
    destruct (row_of_payload p) as [row|e]; cbn [obind].
    + rewrite IH. f_equal.
      * destruct (rows_of rest); cbn [obind]; [|reflexivity].
        now rewrite <- List.app_assoc.
      * unfold log. cbn [trace with_trace]. rewrite <- List.app_assoc. reflexivity.
    + now rewrite List.app_nil_r, with_trace_same.
Qed.

Lemma replace_all_eq services st :
  replace_all services st =
  let st1 := with_store_faults (tl (store_faults st)) st in
  let tr := (trace st ++ [EvBegin; EvDeleteAll] ++ created services)%list in
  match rows_of services with
  | Ok rows =>
      if hd false (store_faults st)
      then (Raise StoreFailure, with_trace (tr ++ [EvRollback])%list st1)
      else (Ok tt, with_trace (tr ++ [EvCommit])%list (with_db rows st1))
  | Raise e => (Raise e, with_trace (tr ++ [EvRollback])%list st1)
  end.
Proof.
  unfold replace_all, next_fault, bind, emit. rewrite create_all_eq.
  cbv zeta. unfold log. cbn -[created rows_of].
  destruct (rows_of services) as [rows|e]; cbn [obind List.app].
  - destruct (hd false (store_faults st)); cbn -[created];
      rewrite <- ?List.app_assoc; reflexivity.
  - cbn -[created]; rewrite <- ?List.app_assoc; reflexivity.
Qed.

Lemma update_cache_unfold st :
  update_cache st =
  match go_nogo_execute_update st with
  | (Ok true, stg) => after_gate stg
  | (Ok false, stg) => (Ok false, stg)
  | (Raise e, stg) => (Raise e, stg)
  end.
Proof.
  unfold update_cache, bind at 1.
  destruct (go_nogo_execute_update st) as [[[]|e] stg]; reflexivity.
Qed.

Ltac pipeline_events :=
  rewrite ?forallb_app; cbn [forallb is_pipeline andb];
  rewrite ?forallb_app; cbn [forallb is_pipeline andb];
  rewrite ?created_pipeline; reflexivity.

Ltac count_events :=
  repeat (rewrite count_app || rewrite count_cons);
  rewrite ?created_no_write, ?created_no_fetch; reflexivity.

Lemma after_gate_fail stg e :
  answered stg = Raise e ->
  exists st' d,
    after_gate stg = (Raise e, st') /\
    ctl st' = ctl stg /\ db st' = db stg /\
    names_cache st' = names_cache stg /\ services_cache st' = services_cache stg /\
    now st' = now stg /\ others st' = others stg /\
    remote st' = tl (remote stg) /\
    db_path st' = db_path stg /\ update_thread st' = update_thread stg /\
    (service_wrapper st' = None <-> service_wrapper stg = None) /\
    trace st' = (trace stg ++ EvFetch :: d)%list /\
    count is_write d = 0%nat /\ count is_fetch d = 0%nat /\
    forallb is_pipeline d = true.
Proof.
  unfold answered, after_gate, bind, get_all. intros H.
  destruct (hd (Raise TransportFailure) (remote stg)) as [services|e'] eqn:Ea;
    cbn [obind] in H.
  2:{ injection H as ->. eexists _, []. split; [reflexivity|].
      cbn. repeat split; auto; discriminate. }
  assert (Hw : exists dw stw,
    (stw = log EvFetch (with_remote (tl (remote stg)) stg) /\ dw = [] /\
     service_wrapper stg = None \/
     exists sw, service_wrapper stg = Some sw /\ dw = [EvReload] /\
       stw = log EvReload (with_wrapper (Some (reload_services services sw))
                             (log EvFetch (with_remote (tl (remote stg)) stg)))) /\
    match service_wrapper (log EvFetch (with_remote (tl (remote stg)) stg)) with
    | Some sw =>
        (Ok tt, log EvReload (with_wrapper (Some (reload_services services sw))
                                (log EvFetch (with_remote (tl (remote stg)) stg))))
    | None => (Ok tt, log EvFetch (with_remote (tl (remote stg)) stg))
    end = (Ok tt, stw)).
  { cbn [service_wrapper log with_trace with_remote].
    destruct (service_wrapper stg) as [sw|] eqn:Esw.
    - eexists [EvReload], _. split; [right; eauto | reflexivity].
    - eexists [], _. split; [left; eauto | reflexivity]. }
  destruct Hw as (dw & stw & Hcase & ->).
  rewrite replace_all_eq. cbv zeta.
  assert (Hf : store_faults stw = store_faults stg)
    by (destruct Hcase as [(-> & _)|(sw & _ & _ & ->)]; reflexivity).
  rewrite Hf.
  destruct (rows_of services) as [rows|e'] eqn:Er; cbn [obind] in H.
  - destruct (hd false (store_faults stg)); [|discriminate]. injection H as <-.
    eexists _, (dw ++ [EvBegin; EvDeleteAll] ++ created services ++ [EvRollback])%list.
    split; [reflexivity|].
    destruct Hcase as [(-> & -> & Hn)|(sw & Hsw & -> & ->)]; cbn -[created count];
      rewrite ?Hn, ?Hsw; repeat split; try congruence;
      try (rewrite <- ?List.app_assoc; reflexivity);
      try count_events; pipeline_events.
  - injection H as <-.
    eexists _, (dw ++ [EvBegin; EvDeleteAll] ++ created services ++ [EvRollback])%list.
    split; [reflexivity|].
    destruct Hcase as [(-> & -> & Hn)|(sw & Hsw & -> & ->)]; cbn -[created count];
      rewrite ?Hn, ?Hsw; repeat split; try congruence;
      try (rewrite <- ?List.app_assoc; reflexivity);
      try count_events; pipeline_events.
Qed.

Lemma after_gate_ok stg rows :
  answered stg = Ok rows ->
  exists services st' d,
    hd (Raise TransportFailure) (remote stg) = Ok services /\
    rows_of services = Ok rows /\
    hd false (store_faults stg) = false /\
    after_gate stg = (Ok true, st') /\
    db st' = rows /\
    ctl st' = {| last_update_run := Some (now stg);
                 update_interval := update_interval (ctl stg);
                 update_status := UPDATED |} /\
    names_cache st' = None /\ services_cache st' = [] /\
    now st' = now stg /\ others st' = others stg /\
    remote st' = tl (remote stg) /\
    store_faults st' = tl (store_faults stg) /\
    db_path st' = db_path stg /\ update_thread st' = update_thread stg /\
    service_wrapper st' = reloaded services (service_wrapper stg) /\
    trace st' =
      (trace stg ++ EvFetch :: d ++
         [EvClearCaches; EvSetStatus UPDATED; EvSetLastRun (now stg)])%list /\
    d = ((match service_wrapper stg with Some _ => [EvReload] | None => [] end)
           ++ [EvBegin; EvDeleteAll] ++ created services ++ [EvCommit])%list /\
    count is_write d = 0%nat /\ count is_fetch d = 0%nat /\
    forallb is_pipeline d = true.
Proof.
  unfold answered, after_gate, bind, get_all. intros H.
  destruct (hd (Raise TransportFailure) (remote stg)) as [services|e'] eqn:Ea;
    cbn [obind] in H; [|discriminate].
  destruct (rows_of services) as [rows'|e'] eqn:Er; cbn [obind] in H; [|discriminate].
  destruct (hd false (store_faults stg)) eqn:Ef; [discriminate|]. injection H as ->.
  exists services.
  cbn [service_wrapper log with_trace with_remote].
  destruct (service_wrapper stg) as [sw|] eqn:Esw;
    rewrite replace_all_eq; cbv zeta;
    cbn [store_faults log with_trace with_remote with_wrapper];
    rewrite Er, Ef; eexists _, _; (split; [reflexivity|]);
    (split; [reflexivity|]); (split; [reflexivity|]); (split; [reflexivity|]);
    cbn -[created count]; rewrite ?Esw; repeat split;
    try (repeat (rewrite <- List.app_assoc || cbn [List.app]); reflexivity);
    try count_events; pipeline_events.
Qed.

(** The gate always answers; what it leaves behind. *)
Lemma go_nogo_total st :
  exists b stg d1,
    go_nogo_execute_update st = (Ok b, stg) /\
    (b = true -> status stg = UPDATING) /\
    (b = false -> status stg <> UPDATING) /\
    update_interval (ctl stg) = update_interval (ctl st) /\
    service_wrapper stg = service_wrapper st /\
    remote stg = remote st /\
    store_faults stg = store_faults st /\
    trace stg = (trace st ++ EvAcquire update_lock :: d1 ++ [EvRelease update_lock])%list /\
    (d1 = [EvSetStatus UPDATING] \/ d1 = repeat EvSleep (sleeps d1)).
Proof.
  destruct (status_eqb (status st) UPDATING) eqn:E.
  - apply status_eqb_eq in E.
    destruct (go_nogo_wait st E) as (stg & d & Hg & Ht & _ & Hrep & _ & Hi & Hw & Hr & Hf & Hq).
    exists (quiet 5 (others st)), stg, d. rewrite Hg.
    destruct (quiet 5 (others st)).
    + destruct Hq as (Hq & _). repeat split; auto. discriminate.
    + repeat split; auto; try discriminate. intros _. rewrite Hq. discriminate.
  - assert (Hn : status st <> UPDATING)
      by (intros H; rewrite H in E; discriminate).
    destruct (recent st) eqn:Er.
    + exists true. eexists _, [EvSetStatus UPDATING].
      rewrite (go_nogo_admit st Hn Er). split; [reflexivity|].
      cbn. rewrite <- !List.app_assoc. repeat split; auto; discriminate.
    + exists false. eexists _, [].
      rewrite (go_nogo_skip st Hn Er). split; [reflexivity|].
      cbn. rewrite <- !List.app_assoc. repeat split; auto; discriminate.
Qed.

(** C1, as stated, fails: the gate admits the refresh, the remote fetch
    (or the store transaction) raises, and [update_cache] ends with the
    phase still [UPDATING]. *)
Lemma C1_counterexample :
  ~ (forall st, fst (go_nogo_execute_update st) = Ok true ->
                status (snd (update_cache st)) <> UPDATING).
Proof.
  intros H. apply (H failing); reflexivity.
Qed.

(** C1, amended.  For every execution of [update_cache] that the gate
    admits: when the fetch and the store transaction succeed it returns
    [True] with the phase [UPDATED] and the time of the refresh stamped;
    when the fetch, a payload or the store transaction raises, the error
    leaves [update_cache], the phase stays [UPDATING], and the next call
    of the gate returns [True] after its bounded wait unless another
    thread completes a refresh meanwhile. *)
Theorem C1_update_cache_exit (st : State) :
  fst (go_nogo_execute_update st) = Ok true ->
  match update_cache st with
  | (Ok b, st') =>
      b = true /\ status st' = UPDATED /\ last_update_run (ctl st') = Some (now st')
  | (Raise e, st') =>
      status st' = UPDATING /\
      fst (go_nogo_execute_update st') = Ok (quiet 5 (others st'))
  end.
Proof.
  intros Hadm. rewrite update_cache_unfold.
  destruct (go_nogo_total st) as (b & stg & d1 & Hg & Ht & _).
  rewrite Hg in *. cbn [fst] in Hadm. injection Hadm as ->.
  specialize (Ht eq_refl).
  destruct (answered stg) as [rows|e] eqn:Ea.
  - destruct (after_gate_ok stg rows Ea)
      as (services & st' & d & _ & _ & _ & -> & _ & Hc & _ & _ & Hn & _).
    unfold status. rewrite Hc, Hn. cbn. auto.
  - destruct (after_gate_fail stg e Ea) as (st' & d & -> & Hc & _).
    assert (Hs : status st' = UPDATING) by (unfold status in *; congruence).
    split; [assumption|].
    destruct (go_nogo_wait st' Hs) as (st2 & d2 & -> & _). reflexivity.
Qed.

Lemma C1_witness :
  fst (go_nogo_execute_update failing) = Ok true /\
  match update_cache failing with
  | (Ok b, st') =>
      b = true /\ status st' = UPDATED /\ last_update_run (ctl st') = Some (now st')
  | (Raise e, st') =>
      status st' = UPDATING /\
      fst (go_nogo_execute_update st') = Ok (quiet 5 (others st'))
  end.
Proof.
  split; [reflexivity | apply C1_update_cache_exit; reflexivity].
Defined.

(** ** The lock of the gate *)

Lemma unguarded_app a : forall h b,
  unguarded h (a ++ b) = (unguarded h a ++ unguarded (held_after h a) b)%list.
Proof.
  induction a as [|e a IH]; intros h b; [reflexivity|].
  destruct e as [[]|[]| | | | | | | | | | | | | |]; cbn; rewrite ?IH; try reflexivity.
  all: destruct h; reflexivity.
Qed.

Lemma held_after_app a : forall h b,
  held_after h (a ++ b) = held_after (held_after h a) b.
Proof.
  induction a as [|e a IH]; intros h b; [reflexivity|].
  destruct e as [[]|[]| | | | | | | | | | | | | |]; cbn; rewrite ?IH; reflexivity.
Qed.

Lemma unguarded_no_write d : count is_write d = 0%nat -> forall h, unguarded h d = [].
Proof.
  induction d as [|e d IH]; intros H h; [reflexivity|].
  rewrite count_cons in H.
  destruct e as [[]|[]| | | | | | | | | | | | | |]; cbn in *; try discriminate;
    apply IH; assumption.
Qed.

Lemma held_after_sleeps k h : held_after h (repeat EvSleep k) = h.
Proof. induction k; cbn; auto. Qed.

Lemma unguarded_sleeps k h : unguarded h (repeat EvSleep k) = [].
Proof. induction k; cbn; auto. Qed.

Lemma held_after_created services h : held_after h (created services) = h.
Proof.
  induction services as [|p rest IH]; [reflexivity|]. cbn [created].
  destruct (row_of_payload p); [exact IH | reflexivity].
Qed.

(** The gate writes under its lock and gives the lock back. *)
Lemma gate_guarded d1 :
  d1 = [EvSetStatus UPDATING] \/ d1 = repeat EvSleep (sleeps d1) ->
  unguarded false (EvAcquire update_lock :: d1 ++ [EvRelease update_lock]) = [] /\
  held_after false (EvAcquire update_lock :: d1 ++ [EvRelease update_lock]) = false.
Proof.
  intros [->| ->]; [split; reflexivity|].
  cbn [unguarded held_after].
  rewrite unguarded_app, held_after_app, unguarded_sleeps, held_after_sleeps.
  split; reflexivity.
Qed.

(** C4, as stated, fails: [update_cache] sets the phase to [UPDATED] and
    stamps the time after the gate has given the lock back. *)
Lemma C4_counterexample :
  ~ (forall st, unguarded false (since st (snd (update_cache st))) = []).
Proof.
  intros H. specialize (H (fresh 60000)). discriminate H.
Qed.

(** C4, amended.  The decision of the gate and the transition of the phase
    into [UPDATING] are made while the gate's lock is held, and the gate
    gives the lock back; the transition to [UPDATED] and the time stamp of
    a refresh that succeeded are written by [update_cache] without the
    lock, and they are its only writes to the refresh state outside the
    lock. *)
Theorem C4_lock_discipline (st : State) :
  unguarded false (since st (snd (go_nogo_execute_update st))) = [] /\
  held_after false (since st (snd (go_nogo_execute_update st))) = false /\
  unguarded false (since st (snd (update_cache st))) =
    match fst (update_cache st) with
    | Ok true =>
        [EvSetStatus UPDATED; EvSetLastRun (now (snd (update_cache st)))]
    | _ => []
    end.
Proof.
  destruct (go_nogo_total st) as (b & stg & d1 & Hg & _ & _ & _ & _ & _ & _ & Ht & Hd).
  destruct (gate_guarded d1 Hd) as [Hu Hh].
  rewrite update_cache_unfold, Hg. cbn [snd]. rewrite (since_app _ _ _ Ht).
  split; [assumption|]. split; [assumption|].
  destruct b.
  - destruct (answered stg) as [rows|e] eqn:Ea.
    + destruct (after_gate_ok stg rows Ea)
        as (services & st' & d & _ & _ & _ & -> & _ & _ & _ & _ & Hn & _ & _ & _ & _ & _ & _
            & Ht' & Hd' & Hw & _).
      cbn [fst snd].
      assert (Hfull : trace st' =
                (trace st ++ (EvAcquire update_lock :: d1 ++ [EvRelease update_lock]) ++
                   EvFetch :: d ++
                   [EvClearCaches; EvSetStatus UPDATED; EvSetLastRun (now stg)])%list)
        by (rewrite Ht', Ht, <- List.app_assoc; reflexivity).
      rewrite (since_app _ _ _ Hfull), unguarded_app, Hu, Hh.
      cbn [List.app unguarded is_write andb]. rewrite unguarded_app.
      rewrite (unguarded_no_write d Hw), Hn. cbn [List.app].
      assert (Hl : held_after false d = false).
      { rewrite Hd', held_after_app.
        destruct (service_wrapper stg); cbn [held_after List.app];
          rewrite held_after_app, held_after_created; reflexivity. }
      rewrite Hl. reflexivity.
    + destruct (after_gate_fail stg e Ea)
        as (st' & d & -> & _ & _ & _ & _ & _ & _ & _ & _ & _ & _ & Ht' & Hw & _).
      cbn [fst snd].
      assert (Hfull : trace st' =
                (trace st ++ (EvAcquire update_lock :: d1 ++ [EvRelease update_lock]) ++
                   EvFetch :: d)%list)
        by (rewrite Ht', Ht, <- List.app_assoc; reflexivity).
      rewrite (since_app _ _ _ Hfull), unguarded_app, Hu, Hh.
      cbn [List.app unguarded is_write andb]. now apply unguarded_no_write.
  - cbn [fst snd]. rewrite (since_app _ _ _ Ht). assumption.
Qed.

(** ** Two refreshes in a row *)

Lemma count_sleeps_only p k : p EvSleep = false -> count p (repeat EvSleep k) = 0%nat.
Proof.
  intros H. induction k as [|k IH]; [reflexivity|].
  cbn [repeat]. rewrite count_cons, H. exact IH.
Qed.

Lemma gate_no_fetch d1 :
  d1 = [EvSetStatus UPDATING] \/ d1 = repeat EvSleep (sleeps d1) ->
  count is_fetch (EvAcquire update_lock :: d1 ++ [EvRelease update_lock]) = 0%nat.
Proof.
  intros [->| ->]; [reflexivity|].
  rewrite count_cons, count_app, count_sleeps_only; reflexivity.
Qed.

(** A refresh that returned [True]: what it answered and what it left. *)
Lemma update_cache_true st st1 :
  update_cache st = (Ok true, st1) ->
  exists stg services rows d1 d,
    go_nogo_execute_update st = (Ok true, stg) /\
    hd (Raise TransportFailure) (remote st) = Ok services /\
    rows_of services = Ok rows /\
    db st1 = rows /\
    ctl st1 = {| last_update_run := Some (now st1);
                 update_interval := update_interval (ctl st);
                 update_status := UPDATED |} /\
    names_cache st1 = None /\ services_cache st1 = [] /\
    service_wrapper st1 = reloaded services (service_wrapper st) /\
    trace st1 =
      (trace st ++ (EvAcquire update_lock :: d1 ++ [EvRelease update_lock]) ++
         EvFetch :: d ++
         [EvClearCaches; EvSetStatus UPDATED; EvSetLastRun (now st1)])%list /\
    (d1 = [EvSetStatus UPDATING] \/ d1 = repeat EvSleep (sleeps d1)) /\
    count is_write d = 0%nat /\ count is_fetch d = 0%nat.
Proof.
  intros H. rewrite update_cache_unfold in H.
  destruct (go_nogo_total st) as (b & stg & d1 & Hg & _ & _ & Hi & Hw & Hr & Hf & Ht & Hd).
  rewrite Hg in H. destruct b; [|discriminate].
  destruct (answered stg) as [rows|e] eqn:Ea.
  - destruct (after_gate_ok stg rows Ea)
      as (services & st' & d & Hh & Hrows & _ & Hag & Hdb & Hc & Hnc & Hsc & Hn & _ & _ & _
          & _ & _ & Hsw & Ht' & _ & Hwr & Hfe & _).
    rewrite Hag in H. injection H as <-.
    exists stg, services, rows, d1, d. rewrite Hn.
    repeat split; try assumption; try congruence.
    rewrite Ht', Ht, <- List.app_assoc. reflexivity.
  - destruct (after_gate_fail stg e Ea) as (st' & d & Hag & _).
    rewrite Hag in H. discriminate.
Qed.

(** C5.  A second [update_cache] that starts within the minimum interval
    after one that succeeded returns [False]; it does not fetch and does
    not touch the store or the caches; the first one fetched once, so the
    two together fetch once. *)
Theorem C5_refresh_twice (st st1 : State) (d : Z) :
  update_cache st = (Ok true, st1) ->
  0 <= d < update_interval (ctl st1) ->
  let st2 := elapse d st1 in
  let st3 := snd (update_cache st2) in
  fst (update_cache st2) = Ok false /\
  count is_fetch (since st2 st3) = 0%nat /\
  count is_store_write (since st2 st3) = 0%nat /\
  db st3 = db st1 /\ remote st3 = remote st1 /\ ctl st3 = ctl st1 /\
  names_cache st3 = names_cache st1 /\ services_cache st3 = services_cache st1 /\
  count is_fetch (since st st1) = 1%nat.
Proof.
  intros H Hd. cbv zeta.
  destruct (update_cache_true st st1 H)
    as (stg & services & rows & d1 & dd & _ & _ & _ & _ & Hc & _ & _ & _ & Ht & Hd1 & _ & Hfe).
  assert (Hs : status (elapse d st1) <> UPDATING).
  { unfold status, elapse. cbn. rewrite Hc. discriminate. }
  assert (Hr : recent (elapse d st1) = false).
  { unfold recent, elapse. cbn. rewrite Hc in *. cbn in *.
    apply negb_false_iff, Z.ltb_lt. lia. }
  rewrite update_cache_unfold, (go_nogo_skip _ Hs Hr). cbn [fst snd].
  rewrite (since_app (elapse d st1) _ [EvAcquire update_lock; EvRelease update_lock])
    by (cbn; rewrite <- List.app_assoc; reflexivity).
  repeat split.
  rewrite (since_app _ _ _ Ht), count_app, (gate_no_fetch d1 Hd1), count_cons, count_app, Hfe.
  reflexivity.
Qed.

Lemma C5_witness :
  update_cache (fresh 60000) = (Ok true, snd (update_cache (fresh 60000))) /\
  0 <= 100 < update_interval (ctl (snd (update_cache (fresh 60000)))) /\
  fst (update_cache (elapse 100 (snd (update_cache (fresh 60000))))) = Ok false.
Proof.
  assert (H1 : update_cache (fresh 60000) = (Ok true, snd (update_cache (fresh 60000))))
    by (vm_compute; reflexivity).
  assert (E : update_interval (ctl (snd (update_cache (fresh 60000)))) = 60000)
    by (vm_compute; reflexivity).
  assert (H2 : 0 <= 100 < update_interval (ctl (snd (update_cache (fresh 60000)))))
    by (rewrite E; lia).
  split; [exact H1|]. split; [exact H2|].
  exact (proj1 (C5_refresh_twice (fresh 60000) _ 100 H1 H2)).
Defined.

(** ** Lookups *)

Lemma split_char_none c a : count_char c a = 0%nat -> split_char c a = [a].
Proof.
  induction a as [|z r IH]; [reflexivity|]. cbn.
  destruct (Ascii.eqb z c); [discriminate|]. intros H. now rewrite IH.
Qed.

Lemma split_char_one c a :
  count_char c a = 1%nat ->
  exists x y, split_char c a = [x; y] /\ a = (x ++ String c y)%string.
Proof.
  induction a as [|z r IH]; [discriminate|]. cbn.
  destruct (Ascii.eqb_spec z c) as [->|Hne].
  - intros H. injection H as H. exists EmptyString, r.
    now rewrite split_char_none.
  - intros H. destruct (IH H) as (x & y & -> & ->).
    exists (String z x), y. split; reflexivity.
Qed.

(** C3, as stated, fails: the alias ["/widget"] has one separator and an
    empty first part, and is looked up by the pair of an empty owner and
    the name [widget], not as
    a literal alias; the row whose alias it is is not found. *)
Lemma C3_counterexample :
  ~ (forall a owner name st,
       qualified a = false ->
       _get (Some a) owner name st = select (ByAlias a) st).
Proof.
  intros H. specialize (H "/widget" None None aliased eq_refl). discriminate H.
Qed.

(** C3, amended.  An alias with exactly one ['/'] is looked up by the pair
    (owner, name) it splits into, also when a part is empty: the alias is
    cleared and the owner and name that were passed are overridden.  An
    alias that is not empty and has no ['/'] or more than one is looked up
    as a literal alias; an empty alias counts as none and the lookup is by
    the owner and name that were passed. *)
Theorem C3_get_by_alias (a : string) (owner name : option string) (st : State) :
  (count_char slash a = 1%nat ->
   exists x y,
     split_char slash a = [x; y] /\ a = (x ++ String slash y)%string /\
     _get (Some a) owner name st = select (ByOwnerName (Some x) (Some y)) st) /\
  (count_char slash a <> 1%nat -> a <> EmptyString ->
   _get (Some a) owner name st = select (ByAlias a) st) /\
  (a = EmptyString ->
   _get (Some a) owner name st = select (ByOwnerName owner name) st).
Proof.
  repeat split.
  - intros H. destruct (split_char_one slash a H) as (x & y & Hs & Ha).
    exists x, y. repeat split; try assumption.
    unfold _get, bind. rewrite H, Hs. reflexivity.
  - intros H Hne. unfold _get, bind.
    destruct (Nat.eqb_spec (count_char slash a) 1) as [E|_]; [contradiction|].
    destruct a; [contradiction | reflexivity].
  - intros ->. reflexivity.
Qed.

Lemma C3_witness :
  count_char slash "acme/widget" = 1%nat /\
  _get (Some "acme/widget") (Some "other") None (snd (update_cache (fresh 60000))) =
  select (ByOwnerName (Some "acme") (Some "widget")) (snd (update_cache (fresh 60000))) /\
  _get (Some "w") (Some "other") None (snd (update_cache (fresh 60000))) =
  select (ByAlias "w") (snd (update_cache (fresh 60000))).
Proof.
  destruct (C3_get_by_alias "acme/widget" (Some "other") None
              (snd (update_cache (fresh 60000)))) as (H1 & _ & _).
  destruct (C3_get_by_alias "w" (Some "other") None
              (snd (update_cache (fresh 60000)))) as (_ & H2 & _).
  split; [reflexivity|]. split.
  - destruct (H1 eq_refl) as (x & y & Hs & _ & Hg).
    injection Hs as <- <-. exact Hg.
  - apply H2; discriminate.
Defined.

Lemma select_eq q st : select q st = (Ok (lookup q (db st)), log (EvSelect q) st).
Proof. destruct q; reflexivity. Qed.

Lemma _get_eq alias owner name st :
  _get alias owner name st =
  (Ok (lookup (query_of alias owner name) (db st)),
   log (EvSelect (query_of alias owner name)) st).
Proof.
  rewrite <- select_eq. unfold _get, query_of, bind.
  destruct alias as [a|]; [|reflexivity].
  destruct (Nat.eqb_spec (count_char slash a) 1) as [E|_].
  - destruct (split_char_one slash a E) as (x & y & -> & _). reflexivity.
  - destruct a; reflexivity.
Qed.

Lemma count_pipeline p d :
  (forall e, is_pipeline e = true -> p e = false) ->
  forallb is_pipeline d = true -> count p d = 0%nat.
Proof.
  intros Hp. induction d as [|e d IH]; [reflexivity|]. cbn [forallb].
  intros H. apply andb_true_iff in H as [He Hd].
  rewrite count_cons, (Hp e He). now apply IH.
Qed.

(** What one [update_cache] does: it enters the gate once, fetches at most
    once, sends no query; when it answers [False] it has not fetched and
    the store is as before. *)
Lemma update_cache_events st :
  exists d,
    trace (snd (update_cache st)) = (trace st ++ d)%list /\
    count is_gate d = 1%nat /\
    (count is_fetch d <= 1)%nat /\
    count is_select d = 0%nat /\
    (service_wrapper (snd (update_cache st)) = None <-> service_wrapper st = None) /\
    (fst (update_cache st) = Ok false -> count is_fetch d = 0%nat).
Proof.
  destruct (go_nogo_total st) as (b & stg & d1 & Hg & _ & _ & _ & Hw & _ & _ & Ht & Hd).
  rewrite update_cache_unfold, Hg.
  assert (G : forall p, p (EvRelease update_lock) = false ->
                        p (EvSetStatus UPDATING) = false -> p EvSleep = false ->
                        count p (EvAcquire update_lock :: d1 ++ [EvRelease update_lock])
                        = if p (EvAcquire update_lock) then 1%nat else 0%nat).
  { intros p H2 H3 H4. rewrite count_cons, count_app, count_cons, H2.
    destruct Hd as [->| ->].
    - rewrite count_cons, H3. cbn. lia.
    - rewrite count_sleeps_only by assumption. cbn. lia. }
  pose proof (G is_gate eq_refl eq_refl eq_refl) as G1.
  pose proof (G is_fetch eq_refl eq_refl eq_refl) as G2.
  pose proof (G is_select eq_refl eq_refl eq_refl) as G3.
  cbn [is_gate is_fetch is_select] in G1, G2, G3. clear G.
  remember (EvAcquire update_lock :: d1 ++ [EvRelease update_lock])%list as g eqn:Eg.
  clear Eg Hd.
  assert (P : forall d p, (forall e, is_pipeline e = true -> p e = false) ->
                          forallb is_pipeline d = true -> count p d = 0%nat)
    by (intros; now apply count_pipeline).
  destruct b.
  - destruct (answered stg) as [rows|e] eqn:Ea.
    + destruct (after_gate_ok stg rows Ea)
        as (services & st' & d & _ & _ & _ & -> & _ & _ & _ & _ & _ & _ & _ & _ & _ & _ & Hsw
            & Ht' & _ & _ & _ & Hp).
      cbn [fst snd]. eexists. split.
      { rewrite Ht', Ht, <- List.app_assoc. reflexivity. }
      rewrite !(count_app _ g), !count_cons, !count_app, !count_cons, G1, G2, G3.
      rewrite (P d is_gate), (P d is_fetch), (P d is_select)
        by (assumption || (intros []; cbn; congruence)).
      cbn. repeat split; try lia; try discriminate.
      all: rewrite Hsw, Hw; destruct (service_wrapper st); cbn; congruence.
    + destruct (after_gate_fail stg e Ea)
        as (st' & d & -> & _ & _ & _ & _ & _ & _ & _ & _ & _ & Hsw & Ht' & _ & _ & Hp).
      cbn [fst snd]. eexists. split.
      { rewrite Ht', Ht, <- List.app_assoc. reflexivity. }
      rewrite !(count_app _ g), !count_cons, G1, G2, G3.
      rewrite (P d is_gate), (P d is_fetch), (P d is_select)
        by (assumption || (intros []; cbn; congruence)).
      cbn. repeat split; try lia; try discriminate.
      all: rewrite <- Hw; apply Hsw.
  - cbn [fst snd]. eexists. split; [exact Ht|].
    rewrite G1, G2, G3. repeat split; try lia; congruence.
Qed.

Lemma get_lookup_miss alias owner name st :
  adapter_miss alias owner name st ->
  fst (_get alias owner name st) = Ok None ->
  let q := query_of alias owner name in
  get_lookup alias owner name st =
  match update_cache (before_refresh q st) with
  | (Raise e, st3) => (Raise e, log (EvRelease retry_lock) st3)
  | (Ok _, st3) =>
      (Ok (option_map_found (lookup q (db st3))),
       log (EvRelease retry_lock) (log (EvSelect q) st3))
  end.
Proof.
  unfold adapter_miss. intros Ha Hm. cbv zeta. rewrite _get_eq in Hm. cbn [fst] in Hm.
  injection Hm as Hm.
  unfold get_lookup, bind at 1.
  assert (E1 : match service_wrapper st with
               | Some sw =>
                   (Ok match sw_get sw alias owner name with
                       | Some h => Some (Adapted h)
                       | None => None
                       end, st)
               | None => (Ok None, st)
               end = (Ok (@None Found), st)).
  { destruct (service_wrapper st); [rewrite Ha|]; reflexivity. }
  rewrite E1. unfold bind at 1. unfold bind at 1. rewrite _get_eq, Hm.
  cbn [ret option_map_found]. unfold with_lock, bind at 1.
  rewrite _get_eq. cbn [db log with_trace]. rewrite Hm.
  unfold bind at 1. fold (before_refresh (query_of alias owner name) st).
  destruct (update_cache (before_refresh (query_of alias owner name) st)) as [[b|e] st3];
    [|reflexivity].
  unfold bind. rewrite _get_eq. reflexivity.
Qed.

Lemma get_result_frame wrap f st st' :
  service_wrapper st = service_wrapper st' ->
  fst (get_result wrap f st) = fst (get_result wrap f st').
Proof.
  intros H. destruct f as [f|]; [|reflexivity]. cbn [get_result]. rewrite H.
  destruct (wrap || _).
  - unfold bind, json_loads. destruct (loads (found_raw_data f)); reflexivity.
  - destruct f as [s|h]; [|reflexivity].
    unfold bind. destruct (negb (is_none (topics s))).
    + unfold json_loads. destruct (topics s); try reflexivity.
      destruct (loads s0); [|reflexivity]. cbn [ret raise].
      destruct (negb (is_none (configuration (set_topics j s)))); [|reflexivity].
      destruct (configuration (set_topics j s)); try reflexivity.
      destruct (loads s1); reflexivity.
    + cbn [ret]. destruct (negb (is_none (configuration s))); [|reflexivity].
      unfold json_loads. destruct (configuration s); try reflexivity.
      destruct (loads s0); reflexivity.
Qed.

Lemma get_result_trace wrap f st : trace (snd (get_result wrap f st)) = trace st.
Proof.
  destruct f as [f|]; [|reflexivity]. cbn [get_result].
  destruct (wrap || _).
  - unfold bind, json_loads. destruct (loads (found_raw_data f)); reflexivity.
  - destruct f as [s|h]; [|reflexivity].
    unfold bind. destruct (negb (is_none (topics s))).
    + unfold json_loads. destruct (topics s); try reflexivity.
      destruct (loads s0); [|reflexivity]. cbn [ret raise].
      destruct (negb (is_none (configuration (set_topics j s)))); [|reflexivity].
      destruct (configuration (set_topics j s)); try reflexivity.
      destruct (loads s1); reflexivity.
    + cbn [ret]. destruct (negb (is_none (configuration s))); [|reflexivity].
      unfold json_loads. destruct (configuration s); try reflexivity.
      destruct (loads s0); reflexivity.
Qed.

(** C6.  A [get] whose first store query finds no record queries once
    more under the retry lock, then forces one refresh (it enters the gate
    once and fetches at most once) and queries one last time.  A failure
    of that refresh leaves [get] as the same exception; a record that is
    still absent gives [None], not an error; a record present after the
    refresh is the one converted. *)
Theorem C6_get_miss (alias owner name : option string) (wrap : bool) (st : State) :
  adapter_miss alias owner name st ->
  fst (_get alias owner name st) = Ok None ->
  let q := query_of alias owner name in
  let st2 := before_refresh q st in
  let st3 := snd (update_cache st2) in
  let r := fst (get_body alias owner name wrap st) in
  let st' := snd (get_body alias owner name wrap st) in
  count is_gate (since st st') = 1%nat /\
  (count is_fetch (since st st') <= 1)%nat /\
  match fst (update_cache st2) with
  | Raise e =>
      r = Raise e /\
      since st st' =
        ([EvSelect q; EvAcquire retry_lock; EvSelect q] ++ since st2 st3
           ++ [EvRelease retry_lock])%list
  | Ok _ =>
      since st st' =
        ([EvSelect q; EvAcquire retry_lock; EvSelect q] ++ since st2 st3
           ++ [EvSelect q; EvRelease retry_lock])%list /\
      (fst (_get alias owner name st3) = Ok None -> r = Ok None) /\
      (forall s, fst (_get alias owner name st3) = Ok (Some s) ->
                 r = fst (get_result wrap (Some (Row s)) st3))
  end.
Proof.
  intros Ha Hm. cbv zeta.
  assert (E : get_body alias owner name wrap st =
              match update_cache (before_refresh (query_of alias owner name) st) with
              | (Raise e, st3) => (Raise e, log (EvRelease retry_lock) st3)
              | (Ok _, st3) =>
                  get_result wrap
                    (option_map_found (lookup (query_of alias owner name) (db st3)))
                    (log (EvRelease retry_lock)
                       (log (EvSelect (query_of alias owner name)) st3))
              end).
  { unfold get_body, bind. rewrite (get_lookup_miss _ _ _ _ Ha Hm). cbv zeta.
    destruct (update_cache _) as [[b|e] st3]; reflexivity. }
  rewrite E. clear E.
  set (q := query_of alias owner name).
  destruct (update_cache_events (before_refresh q st)) as (d & Ht & Hg & Hf & Hs & _).
  assert (Hd : since (before_refresh q st) (snd (update_cache (before_refresh q st))) = d)
    by (apply since_app; exact Ht).
  rewrite Hd.
  destruct (update_cache (before_refresh q st)) as [[b|e] st3]; cbn [fst snd] in *.
  - assert (Hfull : trace (snd (get_result wrap (option_map_found (lookup q (db st3)))
                                  (log (EvRelease retry_lock) (log (EvSelect q) st3)))) =
                    (trace st ++ [EvSelect q; EvAcquire retry_lock; EvSelect q] ++ d
                       ++ [EvSelect q; EvRelease retry_lock])%list).
    { rewrite get_result_trace. cbn [trace log with_trace]. rewrite Ht.
      unfold before_refresh. cbn [trace log with_trace].
      repeat (rewrite <- List.app_assoc || cbn [List.app]). reflexivity. }
    rewrite (since_app _ _ _ Hfull).
    repeat split.
    + repeat (rewrite count_app || rewrite count_cons). rewrite Hg. reflexivity.
    + repeat (rewrite count_app || rewrite count_cons). unfold count in *. cbn. lia.
    + rewrite _get_eq. cbn [fst]. fold q. intros E. injection E as ->. reflexivity.
    + intros s. rewrite _get_eq. cbn [fst]. fold q. intros E. injection E as ->.
      apply get_result_frame. reflexivity.
  - assert (Hfull : trace (log (EvRelease retry_lock) st3) =
                    (trace st ++ [EvSelect q; EvAcquire retry_lock; EvSelect q] ++ d
                       ++ [EvRelease retry_lock])%list).
    { cbn [trace log with_trace]. rewrite Ht.
      unfold before_refresh. cbn [trace log with_trace].
      repeat (rewrite <- List.app_assoc || cbn [List.app]). reflexivity. }
    rewrite (since_app _ _ _ Hfull).
    repeat split.
    + repeat (rewrite count_app || rewrite count_cons). rewrite Hg. reflexivity.
    + repeat (rewrite count_app || rewrite count_cons). unfold count in *. cbn. lia.
Qed.

Lemma C6_witness :
  adapter_miss (Some "nope") None None (snd (update_cache (fresh 60000))) /\
  fst (_get (Some "nope") None None (snd (update_cache (fresh 60000)))) = Ok None /\
  fst (get_body (Some "nope") None None false (snd (update_cache (fresh 60000)))) = Ok None.
Proof.
  assert (H1 : adapter_miss (Some "nope") None None (snd (update_cache (fresh 60000))))
    by (vm_compute; reflexivity).
  assert (H2 : fst (_get (Some "nope") None None (snd (update_cache (fresh 60000)))) = Ok None)
    by (vm_compute; reflexivity).
  split; [exact H1|]. split; [exact H2|].
  pose proof (C6_get_miss (Some "nope") None None false _ H1 H2) as H.
  cbv zeta in H. destruct H as (_ & _ & H).
  assert (E : fst (update_cache
                     (before_refresh (query_of (Some "nope") None None)
                        (snd (update_cache (fresh 60000))))) = Ok false)
    by (vm_compute; reflexivity).
  rewrite E in H. destruct H as (_ & H & _). apply H. vm_compute. reflexivity.
Defined.

(** ** Round trip of the structured fields *)

Ltac obind_inv H :=
  repeat match type of H with
         | obind ?x _ = Ok _ =>
             let E := fresh "E" in
             destruct x eqn:E; cbn [obind] in H; [|discriminate H]
         end.

Lemma row_of_payload_fields p row :
  row_of_payload p = Ok row ->
  exists tops conf,
    payload_topics p = Ok tops /\ payload_configuration p = Ok conf /\
    topics row = JStr (dumps tops) /\
    configuration row = JStr (dumps conf) /\
    raw_data row = dumps p.
Proof.
  unfold row_of_payload, payload_topics, payload_configuration. intros H.
  obind_inv H. injection H as <-. cbn.
  repeat match goal with
         | E : ?x = Ok _ |- context [?x] => rewrite E; cbn [obind]
         end.
  eauto 10.
Qed.

Lemma rows_of_In services : forall rows row,
  rows_of services = Ok rows -> In row rows ->
  exists p, In p services /\ row_of_payload p = Ok row.
Proof.
  induction services as [|p rest IH]; intros rows row H Hin; cbn in H.
  - injection H as <-. destruct Hin.
  - obind_inv H. injection H as <-. destruct Hin as [->|Hin].
    + exists p. split; [now left | assumption].
    + destruct (IH _ _ eq_refl Hin) as (p' & Hp & Hr).
      exists p'. split; [now right | assumption].
Qed.

Lemma getitem_wf k p v : getitem k p = Ok v -> wf p = true -> wf v = true.
Proof.
  destruct p as [| | | | |d]; try discriminate. cbn [getitem wf].
  destruct (find _ d) as [kv|] eqn:E; [|discriminate]. intros H. injection H as <-.
  intros Hw. apply andb_true_iff in Hw as [_ Hw].
  apply find_some in E as [Hin _].
  rewrite forallb_forall in Hw. now apply Hw.
Qed.

Lemma json_loads_dumps v st : wf v = true -> json_loads (JStr (dumps v)) st = (Ok v, st).
Proof. intros H. unfold json_loads. now rewrite JsonFacts.loads_dumps. Qed.

Lemma dumps_not_none v : is_none (JStr (dumps v)) = false.
Proof. reflexivity. Qed.

Lemma get_lookup_hit alias owner name st row :
  service_wrapper st = None ->
  lookup (query_of alias owner name) (db st) = Some row ->
  get_lookup alias owner name st =
  (Ok (Some (Row row)), log (EvSelect (query_of alias owner name)) st).
Proof.
  intros Hw Hl. unfold get_lookup, bind. rewrite Hw, _get_eq, Hl. reflexivity.
Qed.

Lemma get_result_plain s st :
  service_wrapper st = None ->
  get_result false (Some (Row s)) st =
  (obind (deserialized (topics s)) (fun tops =>
   obind (deserialized (configuration s)) (fun conf =>
   Ok (Some (Plain (set_configuration conf (set_topics tops s)))))), st).
Proof.
  intros Hw. cbn [get_result]. rewrite Hw. cbn [orb].
  destruct s as [u n a us de ce pu tops stt conf rd raw].
  unfold bind, json_loads, deserialized, set_topics, set_configuration, ret, raise.
  cbn.
  destruct tops as [| | |t| |]; cbn; try reflexivity.
  - destruct conf as [| | |c| |]; cbn; try reflexivity.
    destruct (loads c); reflexivity.
  - destruct (loads t); cbn; [|reflexivity].
    destruct conf as [| | |c| |]; cbn; try reflexivity.
    destruct (loads c); reflexivity.
Qed.

Lemma get_fresh_cache alias owner name wrap st :
  services_cache st = [] ->
  fst (get alias owner name wrap st) = fst (get_body alias owner name wrap st).
Proof.
  intros H. unfold get. rewrite H. cbn [cache_find]. unfold bind.
  destruct (get_body alias owner name wrap st) as [[v|e] st']; reflexivity.
Qed.

Lemma deserialized_dumps v : wf v = true -> deserialized (JStr (dumps v)) = Ok v.
Proof. intros H. cbn [deserialized]. now rewrite JsonFacts.loads_dumps. Qed.

(** C7.  After a refresh without the adapter, an unwrapped [get] that
    finds a record returns it with the topics and the configuration of the
    payload the record was made of: the structured values, read back from
    the text they were stored as. *)
Theorem C7_round_trip (st st1 : State) (services : list json)
    (alias owner name : option string) (row : Service) :
  update_cache st = (Ok true, st1) ->
  service_wrapper st = None ->
  hd (Raise TransportFailure) (remote st) = Ok services ->
  forallb wf services = true ->
  fst (_get alias owner name st1) = Ok (Some row) ->
  exists p tops conf,
    In p services /\ row_of_payload p = Ok row /\
    payload_topics p = Ok tops /\ payload_configuration p = Ok conf /\
    fst (get alias owner name false st1) =
      Ok (Some (Plain (set_configuration conf (set_topics tops row)))).
Proof.
  intros Hu Hw Hr Hwf Hg.
  destruct (update_cache_true st st1 Hu)
    as (stg & services' & rows & d1 & d & _ & Hr' & Hrows & Hdb & _ & _ & Hsc & Hsw & _).
  rewrite Hr in Hr'. injection Hr' as <-.
  rewrite _get_eq in Hg. cbn [fst] in Hg. injection Hg as Hg.
  assert (Hin : In row rows).
  { rewrite Hdb in Hg. destruct (query_of alias owner name); cbn [lookup] in Hg;
      try discriminate; now apply find_some in Hg. }
  destruct (rows_of_In services rows row Hrows Hin) as (p & Hp & Hrow).
  destruct (row_of_payload_fields p row Hrow) as (tops & conf & Ht & Hc & Htr & Hcr & _).
  exists p, tops, conf. repeat split; try assumption.
  assert (Hwp : wf p = true) by (rewrite forallb_forall in Hwf; now apply Hwf).
  assert (Hwt : wf tops = true).
  { unfold payload_topics in Ht. destruct (getitem "service" p) as [inner|] eqn:Ei;
      [|discriminate]. cbn [obind] in Ht. eauto using getitem_wf. }
  assert (Hwc : wf conf = true) by eauto using getitem_wf.
  rewrite Hw in Hsw. cbn [reloaded] in Hsw.
  rewrite (get_fresh_cache _ _ _ _ _ Hsc). unfold get_body, bind.
  rewrite (get_lookup_hit _ _ _ _ row Hsw Hg).
  rewrite get_result_plain by exact Hsw. cbn [fst].
  now rewrite Htr, Hcr, !deserialized_dumps.
Qed.

Lemma C7_witness :
  update_cache (fresh 60000) = (Ok true, snd (update_cache (fresh 60000))) /\
  forallb wf [widget; gadget] = true /\
  fst (_get (Some "w") None None (snd (update_cache (fresh 60000)))) = Ok (Some widget_row) /\
  fst (get (Some "w") None None false (snd (update_cache (fresh 60000)))) =
    Ok (Some (Plain (set_configuration (JDict [("x", JInt 1)])
                       (set_topics (JList [JStr "a"; JStr "b"]) widget_row)))).
Proof.
  assert (H1 : update_cache (fresh 60000) = (Ok true, snd (update_cache (fresh 60000))))
    by (vm_compute; reflexivity).
  assert (H2 : forallb wf [widget; gadget] = true) by (vm_compute; reflexivity).
  assert (H3 : fst (_get (Some "w") None None (snd (update_cache (fresh 60000))))
               = Ok (Some widget_row)) by (vm_compute; reflexivity).
  split; [exact H1|]. split; [exact H2|]. split; [exact H3|].
  destruct (C7_round_trip (fresh 60000) _ [widget; gadget] (Some "w") None None widget_row
              H1 eq_refl eq_refl H2 H3)
    as (p & tops & conf & Hin & Hrow & Ht & Hc & ->).
  destruct Hin as [<-|[<-|[]]].
  - vm_compute in Ht. vm_compute in Hc. injection Ht as <-. injection Hc as <-.
    reflexivity.
  - vm_compute in Hrow. discriminate Hrow.
Defined.

(** ** The names of the services *)

Lemma names_of_eq s : names_of s = (alias_entry s ++ [compound s])%list.
Proof. unfold names_of, alias_entry, compound. destruct (alias s) as [[|c r]|]; reflexivity. Qed.

Lemma names_perm rows :
  Permutation (flat_map names_of rows)
              (flat_map alias_entry rows ++ map compound rows).
Proof.
  induction rows as [|s rows IH]; [constructor|].
  cbn [flat_map map]. rewrite names_of_eq, <- !List.app_assoc. cbn [List.app].
  apply Permutation_app_head.
  apply Permutation_cons_app. exact IH.
Qed.

Lemma rows_of_perm l l' :
  Permutation l l' -> forall rows,
  rows_of l = Ok rows -> exists rows', rows_of l' = Ok rows' /\ Permutation rows rows'.
Proof.
  induction 1 as [|p l l' Hp IH|p q l|l l' l'' H1 IH1 H2 IH2]; intros rows H.
  - exists rows. split; [assumption | reflexivity].
  - cbn in *. obind_inv H. injection H as <-.
    destruct (IH _ eq_refl) as (rows' & -> & Hperm). cbn.
    eexists. split; [reflexivity | now constructor].
  - cbn [rows_of] in *. obind_inv H. injection H as <-.
    obind_inv E0. injection E0 as <-.
    repeat match goal with
           | E : ?x = Ok _ |- context [?x] => rewrite E; cbn [obind]
           end.
    eexists. split; [reflexivity | constructor].
  - destruct (IH1 _ H) as (r1 & Hr1 & P1). destruct (IH2 _ Hr1) as (r2 & Hr2 & P2).
    exists r2. split; [assumption | now transitivity r1].
Qed.

Lemma names_after_refresh st st1 :
  update_cache st = (Ok true, st1) ->
  fst (get_all_service_names st1) = Ok (flat_map names_of (db st1)).
Proof.
  intros H.
  destruct (update_cache_true st st1 H)
    as (stg & services & rows & d1 & d & _ & _ & _ & _ & _ & Hn & _).
  unfold get_all_service_names. rewrite Hn. reflexivity.
Qed.

(** C8.  After a refresh that succeeded, [get_all_service_names] returns,
    over the records stored, one alias entry for each record whose alias
    is not empty and one [owner/name] entry for each record; fetching the
    same payloads in another order gives the same entries, in another
    order. *)
Theorem C8_service_names (st st1 : State) (services : list json) :
  update_cache st = (Ok true, st1) ->
  hd (Raise TransportFailure) (remote st) = Ok services ->
  exists names,
    fst (get_all_service_names st1) = Ok names /\
    rows_of services = Ok (db st1) /\
    Permutation names (flat_map alias_entry (db st1) ++ map compound (db st1)) /\
    List.length names =
      (List.length (flat_map alias_entry (db st1)) + List.length (db st1))%nat /\
    forall st' st1' services' names',
      update_cache st' = (Ok true, st1') ->
      hd (Raise TransportFailure) (remote st') = Ok services' ->
      Permutation services services' ->
      fst (get_all_service_names st1') = Ok names' ->
      Permutation names names'.
Proof.
  intros Hu Hr.
  destruct (update_cache_true st st1 Hu)
    as (stg & services0 & rows & d1 & d & _ & Hr0 & Hrows & Hdb & _).
  rewrite Hr in Hr0. injection Hr0 as <-.
  exists (flat_map names_of (db st1)).
  split; [now apply (names_after_refresh st)|].
  split; [congruence|]. split; [apply names_perm|]. split.
  - rewrite (Permutation_length (names_perm (db st1))), length_app, length_map.
    reflexivity.
  - intros st' st1' services' names' Hu' Hr' Hp Hn'.
    rewrite (names_after_refresh st' st1' Hu') in Hn'. injection Hn' as <-.
    destruct (update_cache_true st' st1' Hu')
      as (stg' & services1 & rows' & d1' & d' & _ & Hr1 & Hrows' & Hdb' & _).
    rewrite Hr' in Hr1. injection Hr1 as <-.
    destruct (rows_of_perm _ _ Hp _ Hrows) as (rows2 & Hrows2 & Hperm).
    rewrite Hrows' in Hrows2. injection Hrows2 as <-.
    rewrite Hdb, Hdb'. now apply Permutation_flat_map.
Qed.

Lemma C8_witness :
  update_cache (fresh 60000) = (Ok true, snd (update_cache (fresh 60000))) /\
  exists names,
    fst (get_all_service_names (snd (update_cache (fresh 60000)))) = Ok names /\
    List.length names = 3%nat.
Proof.
  assert (H1 : update_cache (fresh 60000) = (Ok true, snd (update_cache (fresh 60000))))
    by (vm_compute; reflexivity).
  split; [exact H1|].
  destruct (C8_service_names (fresh 60000) _ [widget; gadget] H1 eq_refl)
    as (names & Hn & _ & _ & Hl & _).
  exists names. split; [exact Hn|]. rewrite Hl. vm_compute. reflexivity.
Defined.

(** ** What [get] returns for a record it found *)

Lemma get_lookup_adapted alias owner name st h :
  adapter_hit alias owner name st = Some h ->
  get_lookup alias owner name st = (Ok (Some (Adapted h)), st).
Proof.
  unfold adapter_hit, get_lookup, bind. intros H.
  destruct (service_wrapper st) as [sw|]; [|discriminate]. rewrite H. reflexivity.
Qed.

Lemma get_lookup_first alias owner name st row :
  adapter_hit alias owner name st = None ->
  lookup (query_of alias owner name) (db st) = Some row ->
  get_lookup alias owner name st =
  (Ok (Some (Row row)), log (EvSelect (query_of alias owner name)) st).
Proof.
  unfold adapter_hit, get_lookup, bind. intros Ha Hl.
  destruct (service_wrapper st) as [sw|]; [rewrite Ha|]; rewrite _get_eq, Hl; reflexivity.
Qed.

(** Where the record [get] found came from, and that looking for it
    neither installs nor removes the adapter. *)
Lemma get_lookup_found alias owner name st f st2 :
  get_lookup alias owner name st = (Ok (Some f), st2) ->
  (service_wrapper st2 = None <-> service_wrapper st = None) /\
  match f with
  | Adapted h => adapter_hit alias owner name st = Some h /\ st2 = st
  | Row s =>
      adapter_hit alias owner name st = None /\
      lookup (query_of alias owner name) (db st2) = Some s
  end.
Proof.
  intros H.
  destruct (adapter_hit alias owner name st) as [h|] eqn:Ea.
  - rewrite (get_lookup_adapted _ _ _ _ h Ea) in H. injection H as <- <-.
    split; [tauto | split; reflexivity].
  - destruct (lookup (query_of alias owner name) (db st)) as [row|] eqn:El.
    + rewrite (get_lookup_first _ _ _ _ row Ea El) in H. injection H as <- <-.
      split; [cbn; tauto | split; [reflexivity | exact El]].
    + assert (Hm : fst (_get alias owner name st) = Ok None)
        by (rewrite _get_eq; cbn [fst]; now rewrite El).
      rewrite (get_lookup_miss _ _ _ _ Ea Hm) in H. cbv zeta in H.
      destruct (update_cache_events (before_refresh (query_of alias owner name) st))
        as (d & _ & _ & _ & _ & Hw & _).
      destruct (update_cache (before_refresh (query_of alias owner name) st))
        as [[b|e] st3]; [|discriminate]. cbn [snd] in Hw.
      injection H as Hf <-.
      destruct (lookup (query_of alias owner name) (db st3)) as [s|] eqn:El3;
        [|discriminate]. injection Hf as <-.
      split; [exact Hw | split; [reflexivity | exact El3]].
Qed.

(** C9.  For a [get] that finds a record: when [wrap_service] is set, or
    an adapter is configured at all (also when the record came from the
    store), the result is [ServiceData.from_dict] of the record's raw stored
    payload, deserialized; otherwise it is the record itself with its
    topics and its configuration deserialized from the text they were
    stored as ([None] stays [None]).  A text that is not JSON raises. *)
Theorem C9_get_found (alias owner name : option string) (wrap : bool)
    (st st2 : State) (f : Found) :
  get_lookup alias owner name st = (Ok (Some f), st2) ->
  (wrap = true \/ service_wrapper st <> None ->
   fst (get_body alias owner name wrap st) =
     match loads (found_raw_data f) with
     | Some j => Ok (Some (Wrapped (from_dict (JDict [("service_data", j)]))))
     | None => Raise JSONDecodeError
     end) /\
  (wrap = false -> service_wrapper st = None ->
   exists s,
     f = Row s /\
     fst (get_body alias owner name wrap st) =
       obind (deserialized (topics s)) (fun tops =>
       obind (deserialized (configuration s)) (fun conf =>
       Ok (Some (Plain (set_configuration conf (set_topics tops s))))))).
Proof.
  intros H. destruct (get_lookup_found _ _ _ _ _ _ H) as (Hw & Hf).
  unfold get_body, bind. rewrite H. split.
  - intros Hc. cbn [get_result].
    assert (E : wrap || match service_wrapper st2 with Some _ => true | None => false end
                = true).
    { destruct Hc as [->|Hn]; [reflexivity|].
      destruct (service_wrapper st2); [apply orb_true_r|]. tauto. }
    rewrite E. unfold bind, json_loads.
    destruct (loads (found_raw_data f)); reflexivity.
  - intros -> Hn. assert (Hn2 : service_wrapper st2 = None) by tauto.
    destruct f as [s|h].
    + exists s. split; [reflexivity|]. now rewrite get_result_plain.
    + destruct Hf as [Hf _]. unfold adapter_hit in Hf. rewrite Hn in Hf. discriminate.
Qed.

Lemma C9_witness :
  get_lookup (Some "w") None None (snd (update_cache adapted)) =
    (Ok (Some (Row widget_row)), snd (get_lookup (Some "w") None None (snd (update_cache adapted))))
  /\
  fst (get_body (Some "w") None None false (snd (update_cache adapted))) =
    Ok (Some (Wrapped (from_dict (JDict [("service_data", widget)])))).
Proof.
  assert (H : get_lookup (Some "w") None None (snd (update_cache adapted)) =
              (Ok (Some (Row widget_row)),
               snd (get_lookup (Some "w") None None (snd (update_cache adapted)))))
    by (vm_compute; reflexivity).
  split; [exact H|].
  destruct (C9_get_found (Some "w") None None false _ _ _ H) as [Hw _].
  rewrite Hw.
  - cbn [found_raw_data widget_row raw_data].
    rewrite JsonFacts.loads_dumps by (vm_compute; reflexivity). reflexivity.
  - right. vm_compute. discriminate.
Defined.

(** ** The constructor *)

Lemma init_with_wrapper p path auto interval st dir :
  db_dir p path = Ok dir ->
  init p path auto true interval st =
  match update_cache (configured p dir interval st) with
  | (Ok _, st') =>
      (Ok tt, if auto then log EvStartThread (with_thread true st') else st')
  | (Raise e, st') => (Raise e, st')
  end.
Proof.
  intros Hd. unfold init, bind, lift, emit, ret, configured, db_dir in *.
  destruct path as [d|]; [injection Hd as -> | rewrite Hd]; cbv beta iota;
    (destruct (update_cache _) as [[b|e] st']; [|reflexivity]);
    destruct auto; reflexivity.
Qed.

Lemma init_without_wrapper p path auto interval st :
  init p path auto false interval st =
  match db_dir p path with
  | Ok dir =>
      let st0 := with_wrapper None
                   (with_db_path dir
                      (log (EvMakedirs dir) (with_ctl (UpdateController_init interval) st))) in
      (Ok tt, if auto then log EvStartThread (with_thread true st0) else st0)
  | Raise e => (Raise e, with_ctl (UpdateController_init interval) st)
  end.
Proof.
  unfold init, bind, lift, emit, ret, db_dir.
  destruct path as [d|]; [destruct auto; reflexivity|].
  destruct (get_config_dir p ".storyscript"); [destruct auto|]; reflexivity.
Qed.

(** C10.  With the adapter enabled the constructor runs [update_cache]
    once before it returns: the gate of the new controller admits it, the
    remote catalog is fetched once, and when the fetch and the store
    transaction succeed the store holds the fetched records; a failure of
    that refresh leaves the constructor as the same exception.  With the
    adapter disabled the constructor does not enter the gate, does not
    fetch and leaves the store as it is. *)
Theorem C10_init (p : Process) (path : option string) (auto : bool)
    (interval : Z) (st : State) (dir : string) :
  db_dir p path = Ok dir ->
  (let r := fst (init p path auto true interval st) in
   let st' := snd (init p path auto true interval st) in
   count is_gate (since st st') = 1%nat /\
   count is_fetch (since st st') = 1%nat /\
   remote st' = tl (remote st) /\
   match answered st with
   | Ok rows => r = Ok tt /\ db st' = rows /\ status st' = UPDATED
   | Raise e => r = Raise e /\ db st' = db st
   end)
  /\
  (let r := fst (init p path auto false interval st) in
   let st' := snd (init p path auto false interval st) in
   r = Ok tt /\
   count is_gate (since st st') = 0%nat /\
   count is_fetch (since st st') = 0%nat /\
   db st' = db st /\ remote st' = remote st /\ service_wrapper st' = None).
Proof.
  intros Hd. split; cbv zeta.
  - rewrite (init_with_wrapper _ _ _ _ _ _ Hd).
    set (st0 := configured p dir interval st).
    assert (Hs : status st0 <> UPDATING) by (cbn; discriminate).
    assert (Hr : recent st0 = true) by reflexivity.
    rewrite update_cache_unfold, (go_nogo_admit st0 Hs Hr).
    set (stg := log (EvRelease update_lock)
                  (log (EvSetStatus UPDATING)
                     (set_status UPDATING (log (EvAcquire update_lock) st0)))).
    assert (Ea : answered stg = answered st) by reflexivity.
    assert (Htg : trace stg =
                  (trace st ++ [EvMakedirs dir; EvAcquire update_lock;
                                EvSetStatus UPDATING; EvRelease update_lock])%list).
    { cbn. repeat (rewrite <- List.app_assoc || cbn [List.app]). reflexivity. }
    destruct (answered st) as [rows|e] eqn:Eans.
    + destruct (after_gate_ok stg rows Ea)
        as (services & st' & d & _ & _ & _ & -> & Hdb & Hc & _ & _ & _ & _ & Hrem & _ & _ & _
            & _ & Ht' & _ & _ & Hf & Hp).
      assert (Hfull : trace (if auto then log EvStartThread (with_thread true st') else st') =
                (trace st ++ [EvMakedirs dir; EvAcquire update_lock;
                              EvSetStatus UPDATING; EvRelease update_lock] ++
                   EvFetch :: d ++
                   [EvClearCaches; EvSetStatus UPDATED; EvSetLastRun (now stg)] ++
                   (if auto then [EvStartThread] else []))%list).
      { destruct auto; cbn [trace log with_trace with_thread]; rewrite Ht', Htg;
          repeat (rewrite <- List.app_assoc || cbn [List.app]);
          rewrite ?List.app_nil_r; reflexivity. }
      cbn [fst snd]. rewrite (since_app _ _ _ Hfull).
      repeat (rewrite count_app || rewrite count_cons).
      rewrite Hf, (count_pipeline is_gate d) by (assumption || (intros []; cbn; congruence)).
      destruct auto; cbn; unfold status; cbn [ctl log with_trace with_thread];
        rewrite ?Hc; repeat split; auto.
    + destruct (after_gate_fail stg e Ea)
        as (st' & d & -> & _ & Hdb & _ & _ & _ & _ & Hrem & _ & _ & _ & Ht' & _ & Hf & Hp).
      assert (Hfull : trace st' =
                (trace st ++ [EvMakedirs dir; EvAcquire update_lock;
                              EvSetStatus UPDATING; EvRelease update_lock] ++
                   EvFetch :: d)%list).
      { rewrite Ht', Htg. repeat (rewrite <- List.app_assoc || cbn [List.app]).
        reflexivity. }
      cbn [fst snd]. rewrite (since_app _ _ _ Hfull).
      repeat (rewrite count_app || rewrite count_cons).
      rewrite Hf, (count_pipeline is_gate d) by (assumption || (intros []; cbn; congruence)).
      cbn; repeat split; auto.
  - rewrite init_without_wrapper, Hd. cbv zeta.
    destruct auto; cbn [fst snd];
      match goal with
      | |- context [since st ?s] =>
          let t := eval cbn in (trace s) in
          match t with
          | (_ ++ ?d)%list => rewrite (since_app st s d) by reflexivity
          | ((_ ++ ?d1) ++ ?d2)%list =>
              rewrite (since_app st s (d1 ++ d2)%list)
                by (cbn; rewrite <- List.app_assoc; reflexivity)
          end
      end; cbn; repeat split; reflexivity.
Qed.

Lemma C10_witness :
  db_dir posix None = Ok "/home/u/.storyscript"%string /\
  fst (init posix None true true 60000 (fresh 60000)) = Ok tt /\
  count is_fetch (since (fresh 60000) (snd (init posix None true true 60000 (fresh 60000))))
    = 1%nat /\
  count is_fetch (since (fresh 60000) (snd (init posix None true false 60000 (fresh 60000))))
    = 0%nat.
Proof.
  assert (H : db_dir posix None = Ok "/home/u/.storyscript"%string) by reflexivity.
  split; [exact H|].
  destruct (C10_init posix None true 60000 (fresh 60000) _ H) as [H1 H2].
  cbv zeta in H1, H2.
  destruct H1 as (_ & Hf & _ & Ha). destruct H2 as (_ & _ & Hf2 & _).
  assert (E : exists rows, answered (fresh 60000) = Ok rows)
    by (eexists; vm_compute; reflexivity).
  destruct E as [rows E]. rewrite E in Ha.
  split; [apply Ha|]. split; [exact Hf | exact Hf2].
Defined.

(** ** Argument.from_dict *)

Module ArgumentFacts.
Import Argument.

(** What [from_dict] needs, and what it makes of it: the name, the type,
    the help text or ['.not.available'], the required flag or [False], and
    the dictionary itself. *)
Theorem from_dict_fields (data n t : json) (arg : list (string * json)) :
  getitem "name" data = Ok n ->
  getitem "argument" data = Ok (JDict arg) ->
  getitem "type" (JDict arg) = Ok t ->
  exists a,
    from_dict data = Ok a /\
    name a = n /\ type a = t /\ _data a = data /\
    help a = match getitem "help" (JDict arg) with
             | Ok h => h
             | Raise _ => JStr ".not.available"
             end /\
    required a = match getitem "required" (JDict arg) with
                 | Ok r => r
                 | Raise _ => JBool false
                 end.
Proof.
  intros Hn Ha Ht. unfold from_dict. rewrite Hn, Ha. cbn [obind dict_get].
  unfold getitem in *.
  destruct (find (fun kv => String.eqb (fst kv) "help") arg);
    destruct (find (fun kv => String.eqb (fst kv) "type") arg); try discriminate;
    destruct (find (fun kv => String.eqb (fst kv) "required") arg);
    injection Ht as <-; cbn; eexists; repeat split.
Qed.

Lemma from_dict_fields_witness :
  exists a,
    from_dict flush_argument = Ok a /\
    name a = JStr "flush" /\ type a = JStr "boolean" /\
    help a = JStr ".not.available" /\ required a = JBool false.
Proof.
  destruct (from_dict_fields flush_argument (JStr "flush") (JStr "boolean")
              [("in", JStr "responseBody"); ("type", JStr "boolean");
               ("required", JBool false)] eq_refl eq_refl eq_refl)
    as (a & H & Hn & Ht & _ & Hh & Hr).
  exists a. repeat split; assumption.
Defined.

(** [from_dict] succeeds exactly on a dictionary that has a name and an
    argument, the argument being a dictionary that has a type. *)
Theorem from_dict_ok_iff (data : json) :
  (exists a, from_dict data = Ok a) <->
  (exists n arg t,
     getitem "name" data = Ok n /\ getitem "argument" data = Ok (JDict arg) /\
     getitem "type" (JDict arg) = Ok t).
Proof.
  split.
  - intros [a H]. unfold from_dict in H.
    destruct (getitem "name" data) as [n|] eqn:En; [|discriminate].
    destruct (getitem "argument" data) as [arg|] eqn:Ea; [|discriminate].
    cbn [obind] in H.
    destruct arg as [| | | | |d]; try discriminate H.
    destruct (dict_get "help" _ (JDict d)); [|discriminate]. cbn [obind] in H.
    destruct (getitem "type" (JDict d)) as [t|] eqn:Et; [|discriminate].
    eauto 6.
  - intros (n & arg & t & Hn & Ha & Ht).
    destruct (from_dict_fields data n t arg Hn Ha Ht) as (a & H & _). eauto.
Qed.

(** What [from_dict] raises on a dictionary: the first key it misses, in
    the order name, argument, type. *)
Theorem from_dict_missing (d : list (string * json)) :
  (getitem "name" (JDict d) = Raise (KeyError "name") ->
   from_dict (JDict d) = Raise (KeyError "name")) /\
  (forall n, getitem "name" (JDict d) = Ok n ->
             getitem "argument" (JDict d) = Raise (KeyError "argument") ->
             from_dict (JDict d) = Raise (KeyError "argument")) /\
  (forall n arg, getitem "name" (JDict d) = Ok n ->
                 getitem "argument" (JDict d) = Ok (JDict arg) ->
                 getitem "type" (JDict arg) = Raise (KeyError "type") ->
                 from_dict (JDict d) = Raise (KeyError "type")).
Proof.
  repeat split.
  - intros H. unfold from_dict. now rewrite H.
  - intros n Hn Ha. unfold from_dict. now rewrite Hn, Ha.
  - intros n arg Hn Ha Ht. unfold from_dict. rewrite Hn, Ha. cbn [obind dict_get].
    destruct (find _ arg); cbn [obind]; now rewrite Ht.
Qed.

End ArgumentFacts.

(** ** Further properties of the pipeline *)

Lemma sleep_quiet st :
  quiet 1 (others st) = true ->
  exists st1, sleep st = (Ok tt, st1) /\ same_store st st1 /\ others st1 = tl (others st).
Proof.
  unfold sleep. cbv zeta. intros H.
  destruct (others st) as [|[c|] rest] eqn:Eo; cbn [quiet] in H; try discriminate;
    eexists; (split; [reflexivity|]); cbn; rewrite ?Eo; repeat split.
Qed.

Lemma wait_same_store n : forall st st',
  status st <> UPDATING \/ quiet n (others st) = true ->
  wait_while_updating n st = (Ok tt, st') ->
  same_store st st'.
Proof.
  induction n as [|n IH]; intros st st' H Hw.
  - cbn in Hw. injection Hw as <-. repeat split.
  - cbn [wait_while_updating] in Hw. fold (status st) in Hw.
    destruct (status_eqb (status st) UPDATING) eqn:E.
    + apply status_eqb_eq in E. destruct H as [H|H]; [contradiction|].
      assert (Hq1 : quiet 1 (others st) = true)
        by (destruct (others st) as [|[c|] rest]; cbn in *; congruence).
      destruct (sleep_quiet st Hq1) as (st1 & Hs & Hsame & Ho).
      unfold bind in Hw. rewrite Hs in Hw.
      assert (Hq : quiet n (others st1) = true).
      { rewrite Ho. destruct (others st) as [|[c|] rest]; cbn in *;
          try congruence. destruct n; reflexivity. }
      specialize (IH st1 st' (or_intror Hq) Hw).
      destruct Hsame as (A1 & A2 & A3 & A4 & A5 & A6).
      destruct IH as (B1 & B2 & B3 & B4 & B5 & B6).
      repeat split; congruence.
    + injection Hw as <-. repeat split.
Qed.

Lemma go_nogo_wait_eq st :
  status st = UPDATING ->
  exists st1,
    wait_while_updating 5 (log (EvAcquire update_lock) st) = (Ok tt, st1) /\
    go_nogo_execute_update st =
      (Ok (quiet 5 (others st)), log (EvRelease update_lock) st1).
Proof.
  intros Hs.
  destruct (wait_while_updating_spec 5 (log (EvAcquire update_lock) st))
    as (st1 & d & Hw & _ & _ & _ & _ & _ & _ & _ & _ & _ & Hq).
  specialize (Hq Hs). change (others (log (EvAcquire update_lock) st)) with (others st) in Hq.
  exists st1. split; [exact Hw|].
  unfold go_nogo_execute_update, with_lock, bind.
  rewrite check_last_update_run_eq.
  change (recent (log (EvAcquire update_lock) st)) with (recent st).
  destruct (recent st).
  - unfold is_updating.
    change (update_status (ctl (log (EvAcquire update_lock) st))) with (status st).
    rewrite Hs. cbn [andb negb]. rewrite Hw. fold (status st1).
    destruct (quiet 5 (others st)); [destruct Hq as [-> _] | rewrite Hq]; reflexivity.
  - unfold ret at 1. cbn [andb]. rewrite Hw. fold (status st1).
    destruct (quiet 5 (others st)); [destruct Hq as [-> _] | rewrite Hq]; reflexivity.
Qed.

Lemma go_nogo_same_store st :
  fst (go_nogo_execute_update st) = Ok true \/ status st <> UPDATING ->
  db (snd (go_nogo_execute_update st)) = db st /\
  names_cache (snd (go_nogo_execute_update st)) = names_cache st /\
  services_cache (snd (go_nogo_execute_update st)) = services_cache st /\
  last_update_run (ctl (snd (go_nogo_execute_update st))) = last_update_run (ctl st) /\
  db_path (snd (go_nogo_execute_update st)) = db_path st /\
  update_thread (snd (go_nogo_execute_update st)) = update_thread st.
Proof.
  intros H.
  destruct (status_eqb (status st) UPDATING) eqn:E.
  - apply status_eqb_eq in E. destruct H as [H|H]; [|contradiction].
    destruct (go_nogo_wait_eq st E) as (st1 & Hw & Hg).
    rewrite Hg in *. cbn [fst snd] in *. injection H as Hq.
    pose proof (wait_same_store 5 (log (EvAcquire update_lock) st) st1 (or_intror Hq) Hw)
      as (H1 & H2 & H3 & H4 & H5 & H6).
    cbn [db names_cache services_cache ctl db_path update_thread log with_trace] in *.
    rewrite H1, H2, H3, H4, H5, H6. repeat split.
  - assert (Hn : status st <> UPDATING)
      by (intros Hs; rewrite Hs in E; discriminate).
    destruct (recent st) eqn:Er.
    + rewrite (go_nogo_admit st Hn Er). repeat split.
    + rewrite (go_nogo_skip st Hn Er). repeat split.
Qed.

(** A refresh that raises after the gate admitted it leaves the store, the
    caches and the time of the last refresh as they were: the transaction
    is rolled back and nothing after it runs.  The exception is that of the
    fetch, of the first payload that is refused, or of the store. *)
Theorem update_cache_failure_keeps_store (st st1 : State) (e : Exn) :
  update_cache st = (Raise e, st1) ->
  answered st = Raise e /\
  db st1 = db st /\
  names_cache st1 = names_cache st /\ services_cache st1 = services_cache st /\
  last_update_run (ctl st1) = last_update_run (ctl st) /\
  status st1 = UPDATING /\
  count is_fetch (since st st1) = 1%nat.
Proof.
  intros H. rewrite update_cache_unfold in H.
  destruct (go_nogo_total st) as (b & stg & d1 & Hg & Hs & _ & _ & _ & Hr & Hf & Ht & Hd).
  pose proof (go_nogo_same_store st) as Hsame. rewrite Hg in *. cbn [fst snd] in Hsame.
  destruct b; [|discriminate]. specialize (Hs eq_refl).
  destruct (Hsame (or_introl eq_refl)) as (S1 & S2 & S3 & S4 & _).
  assert (Ea : answered stg = answered st) by (unfold answered; now rewrite Hr, Hf).
  destruct (answered stg) as [rows|e'] eqn:Eans.
  - destruct (after_gate_ok stg rows Eans) as (sv & st' & d & _ & _ & _ & Hag & _).
    rewrite Hag in H. discriminate.
  - destruct (after_gate_fail stg e' Eans)
      as (st' & d & Hag & Hc & Hdb & Hnc & Hsc & _ & _ & _ & _ & _ & _ & Ht' & _ & Hfe & _).
    rewrite Hag in H. injection H as <- <-.
    repeat split; try congruence.
    + unfold status in *. congruence.
    + assert (Hfull : trace st' =
                (trace st ++ (EvAcquire update_lock :: d1 ++ [EvRelease update_lock]) ++
                   EvFetch :: d)%list)
        by (rewrite Ht', Ht, <- List.app_assoc; reflexivity).
      rewrite (since_app _ _ _ Hfull), count_app, (gate_no_fetch d1 Hd), count_cons, Hfe.
      reflexivity.
Qed.

Lemma update_cache_failure_keeps_store_witness :
  update_cache faulty = (Raise StoreFailure, snd (update_cache faulty)) /\
  db (snd (update_cache faulty)) = db faulty /\
  status (snd (update_cache faulty)) = UPDATING.
Proof.
  assert (H : update_cache faulty = (Raise StoreFailure, snd (update_cache faulty)))
    by (vm_compute; reflexivity).
  split; [exact H|].
  destruct (update_cache_failure_keeps_store faulty _ _ H) as (_ & Hd & _ & _ & _ & Hs & _).
  split; [exact Hd | exact Hs].
Defined.

Lemma rows_of_Forall2 services : forall rows,
  rows_of services = Ok rows ->
  Forall2 (fun p row => row_of_payload p = Ok row) services rows.
Proof.
  induction services as [|p rest IH]; intros rows H; cbn in H.
  - injection H as <-. constructor.
  - obind_inv H. injection H as <-. constructor; [assumption | now apply IH].
Qed.

(** A refresh that succeeded has replaced the store: it holds one row for
    each payload fetched, in the order fetched, whatever it held before;
    an empty catalog leaves an empty store and no names. *)
Theorem update_cache_replaces (st st1 : State) (services : list json) :
  update_cache st = (Ok true, st1) ->
  hd (Raise TransportFailure) (remote st) = Ok services ->
  Forall2 (fun p row => row_of_payload p = Ok row) services (db st1) /\
  List.length (db st1) = List.length services /\
  (services = [] -> db st1 = [] /\ fst (get_all_service_names st1) = Ok []).
Proof.
  intros Hu Hr.
  destruct (update_cache_true st st1 Hu)
    as (stg & services0 & rows & d1 & d & _ & Hr0 & Hrows & Hdb & _).
  rewrite Hr in Hr0. injection Hr0 as <-. rewrite Hdb. clear Hdb.
  pose proof (rows_of_Forall2 services rows Hrows) as F.
  split; [exact F|]. split; [symmetry; exact (Forall2_length F)|].
  intros ->. inversion F. split; [reflexivity|].
  rewrite (names_after_refresh st st1 Hu).
  destruct (update_cache_true st st1 Hu)
    as (stg' & sv & rows' & d1' & d' & _ & Hr1 & Hrows' & Hdb' & _).
  rewrite Hr in Hr1. injection Hr1 as <-. cbn in Hrows'. injection Hrows' as <-.
  now rewrite Hdb'.
Qed.

Lemma update_cache_replaces_witness :
  update_cache emptied = (Ok true, snd (update_cache emptied)) /\
  db emptied <> [] /\
  db (snd (update_cache emptied)) = [].
Proof.
  assert (H : update_cache emptied = (Ok true, snd (update_cache emptied)))
    by (vm_compute; reflexivity).
  split; [exact H|]. split; [vm_compute; discriminate|].
  destruct (update_cache_replaces emptied _ [] H eq_refl) as (_ & _ & He).
  apply He. reflexivity.
Defined.

(** A wrapped [get] after a refresh returns [ServiceData.from_dict] of the
    very payload that was fetched for the record: the raw payload survives
    being stored as text. *)
Theorem wrapped_round_trip (st st1 : State) (services : list json)
    (alias owner name : option string) (row : Service) :
  update_cache st = (Ok true, st1) ->
  hd (Raise TransportFailure) (remote st) = Ok services ->
  forallb wf services = true ->
  adapter_hit alias owner name st1 = None ->
  fst (_get alias owner name st1) = Ok (Some row) ->
  exists p,
    In p services /\ row_of_payload p = Ok row /\
    fst (get alias owner name true st1) =
      Ok (Some (Wrapped (from_dict (JDict [("service_data", p)])))).
Proof.
  intros Hu Hr Hwf Ha Hg.
  destruct (update_cache_true st st1 Hu)
    as (stg & services' & rows & d1 & d & _ & Hr' & Hrows & Hdb & _ & _ & Hsc & _).
  rewrite Hr in Hr'. injection Hr' as <-.
  rewrite _get_eq in Hg. cbn [fst] in Hg. injection Hg as Hg.
  assert (Hin : In row rows).
  { rewrite Hdb in Hg. destruct (query_of alias owner name); cbn [lookup] in Hg;
      try discriminate; now apply find_some in Hg. }
  destruct (rows_of_In services rows row Hrows Hin) as (p & Hp & Hrow).
  destruct (row_of_payload_fields p row Hrow) as (tops & conf & _ & _ & _ & _ & Hraw).
  exists p. repeat split; try assumption.
  assert (Hwp : wf p = true) by (rewrite forallb_forall in Hwf; now apply Hwf).
  rewrite (get_fresh_cache _ _ _ _ _ Hsc). unfold get_body, bind.
  rewrite (get_lookup_first _ _ _ _ row Ha Hg).
  cbn [get_result orb found_raw_data]. unfold bind, json_loads.
  now rewrite Hraw, JsonFacts.loads_dumps.
Qed.

Lemma wrapped_round_trip_witness :
  update_cache (fresh 60000) = (Ok true, snd (update_cache (fresh 60000))) /\
  fst (get (Some "acme/widget") None None true (snd (update_cache (fresh 60000)))) =
    Ok (Some (Wrapped (from_dict (JDict [("service_data", widget)])))).
Proof.
  assert (H1 : update_cache (fresh 60000) = (Ok true, snd (update_cache (fresh 60000))))
    by (vm_compute; reflexivity).
  assert (H2 : forallb wf [widget; gadget] = true) by (vm_compute; reflexivity).
  assert (H3 : adapter_hit (Some "acme/widget") None None (snd (update_cache (fresh 60000)))
               = None) by (vm_compute; reflexivity).
  assert (H4 : fst (_get (Some "acme/widget") None None (snd (update_cache (fresh 60000))))
               = Ok (Some widget_row)) by (vm_compute; reflexivity).
  split; [exact H1|].
  destruct (wrapped_round_trip (fresh 60000) _ [widget; gadget] (Some "acme/widget") None None
              widget_row H1 eq_refl H2 H3 H4) as (p & Hin & Hrow & ->).
  destruct Hin as [<-|[<-|[]]]; [reflexivity|].
  vm_compute in Hrow. discriminate Hrow.
Defined.

(** ** Further properties of the lookups *)

(** [_get] never raises: an alias with one ['/'] always splits in two.  It
    sends one query, and what it returns is a row of the store that carries
    the alias, or the owner and the name, the query asks for. *)
Theorem _get_sound (alias owner name : option string) (st : State) :
  let q := query_of alias owner name in
  exists r,
    _get alias owner name st = (Ok r, log (EvSelect q) st) /\
    forall row, r = Some row ->
      In row (db st) /\
      match q with
      | ByAlias a => Hub.alias row = Some a /\ a <> EmptyString
      | ByOwnerName o n => o = Some (username row) /\ n = Some (Hub.name row)
      | Names => False
      end.
Proof.
  cbv zeta. rewrite _get_eq. eexists. split; [reflexivity|].
  intros row Hl.
  assert (Hq : forall a, query_of alias owner name = ByAlias a -> a <> EmptyString).
  { intros a. unfold query_of. destruct alias as [x|]; [|discriminate].
    destruct (Nat.eqb_spec (count_char slash x) 1) as [E|_].
    - destruct (split_char_one slash x E) as (u & v & -> & _). discriminate.
    - destruct x; cbn; [discriminate|]. intros H. injection H as <-. discriminate. }
  destruct (query_of alias owner name) as [a|o n|]; cbn [lookup] in Hl; try discriminate.
  - apply find_some in Hl as [Hin Hm]. split; [assumption|]. split; [|now apply Hq].
    unfold alias_is in Hm. destruct (Hub.alias row) as [x|]; [|discriminate].
    apply String.eqb_eq in Hm. now subst.
  - apply find_some in Hl as [Hin Hm]. split; [assumption|].
    unfold owner_name_is, opt_is in Hm. apply andb_true_iff in Hm as [H1 H2].
    destruct o as [o|]; [|discriminate]. destruct n as [n|]; [|discriminate].
    apply String.eqb_eq in H1, H2. now subst.
Qed.

Lemma get_result_state wrap f st : snd (get_result wrap f st) = st.
Proof.
  destruct f as [f|]; [|reflexivity]. cbn [get_result].
  destruct (wrap || _).
  - unfold bind, json_loads. destruct (loads (found_raw_data f)); reflexivity.
  - destruct f as [s|h]; [|reflexivity].
    destruct s as [u n a us de ce pu tops stt conf rd raw].
    unfold bind, json_loads, set_topics, set_configuration, ret, raise. cbn.
    destruct tops as [| | |t| |]; cbn; try reflexivity.
    + destruct conf as [| | |c| |]; cbn; try reflexivity.
      destruct (loads c); reflexivity.
    + destruct (loads t); cbn; [|reflexivity].
      destruct conf as [| | |c| |]; cbn; try reflexivity.
      destruct (loads c); reflexivity.
Qed.

(** A [get] that finds the record with its first query does nothing else:
    one query, no gate, no fetch; the store, the controller and the script
    of the remote catalog are as before. *)
Theorem get_hit_single_query (alias owner name : option string) (wrap : bool)
    (st : State) (row : Service) :
  adapter_hit alias owner name st = None ->
  fst (_get alias owner name st) = Ok (Some row) ->
  let st' := snd (get_body alias owner name wrap st) in
  since st st' = [EvSelect (query_of alias owner name)] /\
  db st' = db st /\ ctl st' = ctl st /\ remote st' = remote st.
Proof.
  intros Ha Hg. cbv zeta. rewrite _get_eq in Hg. cbn [fst] in Hg. injection Hg as Hg.
  unfold get_body, bind. rewrite (get_lookup_first _ _ _ _ row Ha Hg).
  rewrite get_result_state. cbn [snd].
  split; [apply since_app; reflexivity | repeat split].
Qed.

Lemma get_hit_single_query_witness :
  adapter_hit (Some "w") None None (snd (update_cache (fresh 60000))) = None /\
  fst (_get (Some "w") None None (snd (update_cache (fresh 60000)))) = Ok (Some widget_row) /\
  since (snd (update_cache (fresh 60000)))
        (snd (get_body (Some "w") None None false (snd (update_cache (fresh 60000)))))
    = [EvSelect (ByAlias "w")].
Proof.
  assert (H1 : adapter_hit (Some "w") None None (snd (update_cache (fresh 60000))) = None)
    by (vm_compute; reflexivity).
  assert (H2 : fst (_get (Some "w") None None (snd (update_cache (fresh 60000))))
               = Ok (Some widget_row)) by (vm_compute; reflexivity).
  split; [exact H1|]. split; [exact H2|].
  exact (proj1 (get_hit_single_query (Some "w") None None false _ widget_row H1 H2)).
Defined.

(** ** The caches *)

Lemma key_eqb_refl k : key_eqb k k = true.
Proof.
  destruct k as [[[a o] n] w]. cbn.
  destruct a, o, n, w; cbn; rewrite ?String.eqb_refl; reflexivity.
Qed.

(** [@cached] on [get]: once a call has computed its result, the same
    call is answered from the cache for the next 60 seconds, whatever the
    store holds by then: it returns the same result and does nothing (no
    query, no gate, no fetch). *)
Theorem get_is_cached (alias owner name : option string) (wrap : bool)
    (st st1 st2 : State) (v : option Result) :
  cache_find (alias, owner, name, wrap) (now st) (services_cache st) = None ->
  get alias owner name wrap st = (Ok v, st1) ->
  services_cache st2 = services_cache st1 ->
  now st2 < now st1 + ttl ->
  get alias owner name wrap st2 = (Ok v, st2).
Proof.
  intros Hmiss Hg Hc Hn. unfold get in Hg. rewrite Hmiss in Hg. unfold bind in Hg.
  destruct (get_body alias owner name wrap st) as [[v'|e] st'] eqn:Eb; [|discriminate].
  injection Hg as <- <-.
  unfold get. rewrite Hc. cbn [services_cache with_caches cache_store cache_find now] in *.
  rewrite key_eqb_refl.
  destruct (Z.ltb_spec (now st2) (now st' + ttl)); [reflexivity | lia].
Qed.

Lemma later_services_cache rows d st :
  services_cache (with_db rows (elapse d st)) = services_cache st.
Proof. reflexivity. Qed.

Lemma later_names_cache rows st : names_cache (with_db rows st) = names_cache st.
Proof. reflexivity. Qed.

Lemma get_is_cached_witness :
  cache_find (Some "w", None, None, false) (now (snd (update_cache (fresh 60000))))
    (services_cache (snd (update_cache (fresh 60000)))) = None /\
  now (with_db [] (elapse 59999 (snd (get (Some "w") None None false
                                       (snd (update_cache (fresh 60000)))))))
    < now (snd (get (Some "w") None None false (snd (update_cache (fresh 60000))))) + ttl /\
  fst (get (Some "w") None None false
         (with_db [] (elapse 59999 (snd (get (Some "w") None None false
                                            (snd (update_cache (fresh 60000)))))))) =
  fst (get (Some "w") None None false (snd (update_cache (fresh 60000)))).
Proof.
  assert (H1 : cache_find (Some "w", None, None, false)
                 (now (snd (update_cache (fresh 60000))))
                 (services_cache (snd (update_cache (fresh 60000)))) = None)
    by (vm_compute; reflexivity).
  assert (H3 : now (with_db [] (elapse 59999 (snd (get (Some "w") None None false
                                                    (snd (update_cache (fresh 60000)))))))
               < now (snd (get (Some "w") None None false
                             (snd (update_cache (fresh 60000))))) + ttl)
    by (vm_compute; reflexivity).
  split; [exact H1|]. split; [exact H3|].
  destruct (get (Some "w") None None false (snd (update_cache (fresh 60000))))
    as [[v|e] st1] eqn:H2; [|vm_compute in H2; discriminate H2].
  cbn [fst snd] in *.
  now rewrite (get_is_cached (Some "w") None None false _ st1 _ v H1 H2
                 (later_services_cache [] 59999 st1) H3).
Defined.

(** [@cached] on [get_all_service_names]: once the names have been read
    from the store they are served from the cache for the next 60 seconds,
    whatever the store holds by then, without a query. *)
Theorem names_are_cached (st st1 st2 : State) (v : list string) :
  names_cache st = None ->
  get_all_service_names st = (Ok v, st1) ->
  names_cache st2 = names_cache st1 ->
  now st2 < now st1 + ttl ->
  v = flat_map names_of (db st) /\
  get_all_service_names st2 = (Ok v, st2).
Proof.
  intros Hmiss Hg Hc Hn. unfold get_all_service_names in Hg. rewrite Hmiss in Hg.
  unfold bind, get_all_service_names_body in Hg. injection Hg as <- <-.
  split; [reflexivity|].
  unfold get_all_service_names. rewrite Hc.
  cbn [names_cache with_caches now log with_trace] in *.
  destruct (Z.ltb_spec (now st2) (now st + ttl)); [reflexivity | lia].
Qed.

Lemma names_are_cached_witness :
  names_cache (snd (update_cache (fresh 60000))) = None /\
  now (with_db [] (snd (get_all_service_names (snd (update_cache (fresh 60000))))))
    < now (snd (get_all_service_names (snd (update_cache (fresh 60000))))) + ttl /\
  fst (get_all_service_names
         (with_db [] (snd (get_all_service_names (snd (update_cache (fresh 60000))))))) =
  fst (get_all_service_names (snd (update_cache (fresh 60000)))).
Proof.
  assert (H1 : names_cache (snd (update_cache (fresh 60000))) = None)
    by (vm_compute; reflexivity).
  assert (H3 : now (with_db [] (snd (get_all_service_names (snd (update_cache (fresh 60000))))))
               < now (snd (get_all_service_names (snd (update_cache (fresh 60000))))) + ttl)
    by (vm_compute; reflexivity).
  split; [exact H1|]. split; [exact H3|].
  destruct (get_all_service_names (snd (update_cache (fresh 60000))))
    as [[v|e] st1] eqn:H2; [|vm_compute in H2; discriminate H2].
  cbn [fst snd] in *.
  destruct (names_are_cached _ st1 (with_db [] st1) v H1 H2 (later_names_cache [] st1) H3)
    as [_ H].
  now rewrite H.
Defined.

(** A refresh clears both caches, so the first [get_all_service_names]
    and the first [get] after it read the store again. *)
Theorem update_cache_clears_caches (st st1 : State) :
  update_cache st = (Ok true, st1) ->
  names_cache st1 = None /\ services_cache st1 = [] /\
  fst (get_all_service_names st1) = Ok (flat_map names_of (db st1)) /\
  forall alias owner name wrap,
    fst (get alias owner name wrap st1) = fst (get_body alias owner name wrap st1).
Proof.
  intros Hu.
  destruct (update_cache_true st st1 Hu)
    as (stg & services & rows & d1 & d & _ & _ & _ & _ & _ & Hn & Hs & _).
  split; [exact Hn|]. split; [exact Hs|]. split.
  - now apply (names_after_refresh st).
  - intros. now apply get_fresh_cache.
Qed.

Lemma update_cache_clears_caches_witness :
  let st := snd (get (Some "w") None None false (snd (update_cache (fresh 60000)))) in
  let st2 := with_remote [Ok [gadget]] (elapse 60000 st) in
  services_cache st2 <> [] /\
  update_cache st2 = (Ok true, snd (update_cache st2)) /\
  services_cache (snd (update_cache st2)) = [].
Proof.
  cbv zeta.
  split; [vm_compute; discriminate|].
  match goal with
  | |- ?a = _ /\ _ => assert (H : a = (Ok true, snd a)) by (vm_compute; reflexivity)
  end.
  split; [exact H|].
  exact (proj1 (proj2 (update_cache_clears_caches _ _ H))).
Defined.

(** ** Refreshes that meet *)

(** A caller that finds a refresh in flight waits; when that refresh is
    completed by its thread within the five polls, the caller's
    [update_cache] returns [False] without fetching and without a
    transaction of its own, and the phase is [UPDATED]. *)
Theorem update_cache_waits_for_other (st : State) :
  status st = UPDATING ->
  quiet 5 (others st) = false ->
  let st' := snd (update_cache st) in
  fst (update_cache st) = Ok false /\
  status st' = UPDATED /\
  count is_fetch (since st st') = 0%nat /\
  count is_store_write (since st st') = 0%nat /\
  (sleeps (since st st') <= 5)%nat /\
  remote st' = remote st.
Proof.
  intros Hs Hq. cbv zeta. rewrite update_cache_unfold.
  destruct (go_nogo_wait st Hs) as (st' & d & -> & Ht & Hle & Hrep & _ & _ & _ & Hr & _ & Hst).
  rewrite Hq in *. cbn [fst snd].
  rewrite (since_app _ _ _ Ht).
  repeat split; try assumption.
  - rewrite count_cons, count_app, Hrep, count_sleeps_only; reflexivity.
  - rewrite count_cons, count_app, Hrep, count_sleeps_only; reflexivity.
  - change (sleeps (EvAcquire update_lock :: d ++ [EvRelease update_lock]))
      with (sleeps (d ++ [EvRelease update_lock])).
    rewrite sleeps_app. cbn. lia.
Qed.

Lemma update_cache_waits_for_other_witness :
  status inflight = UPDATING /\
  quiet 5 (others inflight) = false /\
  fst (update_cache inflight) = Ok false /\
  status (snd (update_cache inflight)) = UPDATED.
Proof.
  assert (H1 : status inflight = UPDATING) by reflexivity.
  assert (H2 : quiet 5 (others inflight) = false) by reflexivity.
  split; [exact H1|]. split; [exact H2|].
  destruct (update_cache_waits_for_other inflight H1 H2) as (Hf & Hu & _).
  split; [exact Hf | exact Hu].
Defined.



(** ** The constructor without a directory *)

(** On Windows without [APPDATA] the default directory cannot be built:
    the constructor raises [TypeError] before it creates a directory,
    installs the adapter, refreshes or starts the thread. *)
Theorem init_without_appdata (p : Process) (auto wrapper : bool)
    (interval : Z) (st : State) :
  win32 p = true -> APPDATA p = None ->
  let st' := snd (init p None auto wrapper interval st) in
  fst (init p None auto wrapper interval st) = Raise TypeError /\
  since st st' = [] /\
  db st' = db st /\ remote st' = remote st /\
  service_wrapper st' = service_wrapper st /\ update_thread st' = update_thread st.
Proof.
  intros Hw Ha. cbv zeta. unfold init, bind, lift, get_config_dir. rewrite Hw, Ha.
  cbn [fst snd]. repeat split.
  apply since_app. cbn. now rewrite List.app_nil_r.
Qed.

Lemma init_without_appdata_witness :
  win32 windows = true /\ APPDATA windows = None /\
  fst (init windows None true true 60000 (fresh 60000)) = Raise TypeError.
Proof.
  split; [reflexivity|]. split; [reflexivity|].
  exact (proj1 (init_without_appdata windows true true 60000 (fresh 60000) eq_refl eq_refl)).
Defined.

(** With a directory given, or one the platform provides, the constructor
    does not raise unless its refresh does: it creates the directory first,
    and starts the refresh thread last, only when [auto_update] is set. *)
Theorem init_order (p : Process) (path : option string) (auto : bool)
    (interval : Z) (st : State) (dir : string) :
  db_dir p path = Ok dir ->
  let st' := snd (init p path auto false interval st) in
  since st st' = (EvMakedirs dir :: if auto then [EvStartThread] else [])%list /\
  update_thread st' = (auto || update_thread st)%bool /\
  db_path st' = dir /\
  ctl st' = UpdateController_init interval.
Proof.
  intros Hd. cbv zeta. rewrite init_without_wrapper, Hd. cbv zeta.
  destruct auto; cbn [fst snd]; (split; [apply since_app|]); cbn;
    rewrite <- ?List.app_assoc; repeat split.
Qed.

Lemma init_order_witness :
  db_dir posix None = Ok "/home/u/.storyscript"%string /\
  since (fresh 60000) (snd (init posix None true false 60000 (fresh 60000)))
    = [EvMakedirs "/home/u/.storyscript"; EvStartThread].
Proof.
  split; [reflexivity|].
  exact (proj1 (init_order posix None true 60000 (fresh 60000) _ eq_refl)).
Defined.

